(** * ft_transcendence: match records, occupant slots and matchmaking queries

    A shallow embedding of the server code that stores matches
    ([Game], [UserGame]) and answers the matchmaking queries, and of the
    client code that waits for a match and shows its results:
    - [server/src/game/game.entity.ts]: the [Game] table,
    - [unnamed/part_002]: [GameService] (the game service),
    - [unnamed/part_001]: [UserGameController] (the user-game controller),
    - [server/src/auth/auth.service.ts]: [AuthService.verifyTOTP],
    - [unnamed/part_006]: the [Game] page that polls the wait room,
    - [client/src/components/Profile.tsx]: match history and statistics.

    Asynchronous methods are modelled as computations over the database
    in a state-and-exception monad: a method takes the store, returns a
    value or throws an [HttpException], and hands the store on.  Route
    guards and [ParseIntPipe] run before a handler and are not part of
    it: a handler is given its parameters already parsed. *)

From Stdlib Require Import ZArith List String Bool Lia Sorted Permutation.
Import ListNotations.

Local Open Scope string_scope.
Local Open Scope list_scope.
Local Open Scope Z_scope.

(* ================================================================= *)
(** ** HTTP exceptions *)

Module Http.

Inductive HttpStatus : Type :=
| BAD_REQUEST
| NOT_FOUND
| CONFLICT
| INTERNAL_SERVER_ERROR.

Record HttpException : Type := mkHttpException
  { response : string; httpStatus : HttpStatus }.

Inductive result (A : Type) : Type :=
| Ok (a : A)
| Throw (e : HttpException).

Arguments Ok {A} a.
Arguments Throw {A} e.

Definition is_throw {A : Type} (r : result A) : bool :=
  match r with Ok _ => false | Throw _ => true end.

End Http.
Import Http.

(* ================================================================= *)
(** ** Entities and the store *)

Module Entity.

(** Modelled from the spec: [User] ([user.entity.ts] is not among the
    sources): a player identity, keyed by [login]; [clearance] is the
    level the guards compare.  No other attribute is read by the code
    embedded here. *)
Record User : Type := mkUser
  { login : string; clearance : Z }.

(** The [Game] table of [game.entity.ts].  The key [id] is a
    [DataType.UUID] column, held here as the text of the UUID.
    [status] is a [string] in the class; the column type is the ENUM
    below.  [createdAt] is the timestamp the ORM keeps for every row
    (the [@Table] options do not switch timestamps off). *)
Record GameRow : Type := mkGameRow
  { row_id : string;
    row_isRanked : bool;
    row_status : string;
    row_invitee : option string;
    row_createdAt : Z }.

(** [DataType.ENUM('ongoing','finished','abandoned','waiting','invitation')] *)
Definition status_enum : list string :=
  ["ongoing"; "finished"; "abandoned"; "waiting"; "invitation"].

Definition in_status_enum (s : string) : bool :=
  existsb (String.eqb s) status_enum.

(** Modelled from the spec: [UserGame] ([user-game.entity.ts] is not
    among the sources), the join table behind
    [@BelongsToMany(() => User, () => UserGame)]: one occupant slot of a
    game, with that occupant's score.  [gameId] refers to the UUID key
    of the game.  The controller reads [user_game.userLogin]. *)
Record UserGame : Type := mkUserGame
  { userLogin : string; gameId : string; score : Z }.

(** A [Game] instance as the service sees it after
    [include: [{ all: true }]]: the row together with its users.  The
    [modifiers] association is read by none of the methods below and is
    left out. *)
Record Game : Type := mkGame
  { id : string;
    isRanked : bool;
    status : string;
    invitee : option string;
    createdAt : Z;
    users : list User }.

(** What a caller hands to a [where: { id }] clause at run time, where
    TypeScript's types are gone: a string that reads as a UUID (given
    by the text of that UUID), any other string, or a number. *)
Inductive JsId : Type :=
| IdUuid (u : string)
| IdText (s : string)
| IdNumber (n : Z).

(** The database.  Each table lists its rows in the order in which the
    database enumerates them for a query without an [order] option. *)
Record DB : Type := mkDB
  { users_tbl : list User;
    games_tbl : list GameRow;
    user_games_tbl : list UserGame }.

Definition with_games (gs : list GameRow) (db : DB) : DB :=
  mkDB (users_tbl db) gs (user_games_tbl db).

Definition with_user_games (ugs : list UserGame) (db : DB) : DB :=
  mkDB (users_tbl db) (games_tbl db) ugs.

End Entity.
Import Entity.

(* ================================================================= *)
(** ** The monad of service and controller methods *)

Module Async.

Definition M (A : Type) : Type := DB -> result A * DB.

Definition ret {A : Type} (a : A) : M A := fun db => (Ok a, db).

Definition throw {A : Type} (msg : string) (st : HttpStatus) : M A :=
  fun db => (Throw (mkHttpException msg st), db).

Definition bind {A B : Type} (m : M A) (k : A -> M B) : M B :=
  fun db =>
    match m db with
    | (Ok a, db') => k a db'
    | (Throw e, db') => (Throw e, db')
    end.

(** A query: reads the store and leaves it as it is. *)
Definition query {A : Type} (f : DB -> A) : M A := fun db => (Ok (f db), db).

(** [try { ... } catch (error) { throw new HttpException(error, 500) }] *)
Definition try_catch_500 {A : Type} (m : M A) : M A :=
  fun db =>
    match m db with
    | (Ok a, db') => (Ok a, db')
    | (Throw e, db') =>
        (Throw (mkHttpException (response e) INTERNAL_SERVER_ERROR), db')
    end.

Definition value {A : Type} (r : result A * DB) : result A := fst r.
Definition store {A : Type} (r : result A * DB) : DB := snd r.

End Async.
Import Async.

Notation "x <- m ;; k" := (bind m (fun x => k))
  (at level 61, m at next level, right associativity).

(* ================================================================= *)
(** ** The [Game] repository (the ORM model injected as GAME_REPOSITORY) *)

Module GameRepository.

(** The users joined to a game through the [UserGame] table. *)
Definition users_of (db : DB) (gid : string) : list User :=
  flat_map
    (fun ug => filter (fun u => String.eqb (login u) (userLogin ug)) (users_tbl db))
    (filter (fun ug => String.eqb (gameId ug) gid) (user_games_tbl db)).

(** [include: [{ all: true }]] *)
Definition include_all (db : DB) (r : GameRow) : Game :=
  mkGame (row_id r) (row_isRanked r) (row_status r) (row_invitee r)
         (row_createdAt r) (users_of db (row_id r)).

(** The error the database raises for a statement it cannot run. *)
Definition database_error {A : Type} : M A :=
  throw "SequelizeDatabaseError" INTERNAL_SERVER_ERROR.

(** [findAll({ include: [{ all: true }], where })]: every row the
    [where] clause accepts, in the table's enumeration order. *)
Definition findAll (where_ : GameRow -> bool) : M (list Game) :=
  query (fun db => map (include_all db) (filter where_ (games_tbl db))).

(** [findOne({ include: [{ all: true }], where })]: the first row the
    [where] clause accepts, [None] (JS [null]) when there is none.
    No [order] option is ever passed. *)
Definition findOne (where_ : GameRow -> bool) : M (option Game) :=
  query (fun db => option_map (include_all db) (find where_ (games_tbl db))).

(** [findOne({ where: { id: id }, include: [{ all: true }] })].  The
    column is a UUID: the database compares it with a UUID and raises
    an error for a number (there is no [uuid = integer]) and for a
    string that is not a UUID. *)
Definition findOne_by_id (id_ : JsId) : M (option Game) :=
  match id_ with
  | IdUuid u => findOne (fun r => String.eqb (row_id r) u)
  | IdText _ | IdNumber _ => database_error
  end.

(** Modelled from the spec: [GameDto] ([game.dto.ts] is not among the
    sources): the persisted attributes of a match (participants,
    ranked flag, status), each optional as in a request body. *)
Record GameDto : Type := mkGameDto
  { dto_id : option string;
    dto_isRanked : option bool;
    dto_status : option string;
    dto_invitee : option string;
    dto_users : list User }.

(** What the runtime draws when a row is inserted: the clock reading
    stamped as [createdAt] and the default value of the key
    ([DataType.UUIDV4]). *)
Record Env : Type := mkEnv { now : Z; fresh_id : string }.

Definition has_id (i : string) (db : DB) : bool :=
  existsb (fun r => String.eqb (row_id r) i) (games_tbl db).

(** The column constraints of [game.entity.ts] on an inserted row:
    [status] is [allowNull: false] and of the ENUM type, [isRanked] is
    [allowNull: false], [id] is the primary key. *)
Definition create (env : Env) (dto : GameDto) : M Game :=
  fun db =>
    let i := match dto_id dto with Some i => i | None => fresh_id env end in
    match dto_isRanked dto, dto_status dto with
    | Some rk, Some s =>
        if in_status_enum s && negb (has_id i db) then
          let r := mkGameRow i rk s (dto_invitee dto) (now env) in
          (Ok (mkGame i rk s (dto_invitee dto) (now env) []),
           with_games (games_tbl db ++ [r]) db)
        else (Throw (mkHttpException "SequelizeDatabaseError" INTERNAL_SERVER_ERROR), db)
    | _, _ =>
        (Throw (mkHttpException "SequelizeValidationError" INTERNAL_SERVER_ERROR), db)
    end.

Definition is_registered (db : DB) (u : User) : bool :=
  existsb (fun u' => String.eqb (login u') (login u)) (users_tbl db).

(** No login occurs twice. *)
Fixpoint distinct (ls : list string) : bool :=
  match ls with
  | [] => true
  | l :: ls' => negb (existsb (String.eqb l) ls') && distinct ls'
  end.

(** [instance.$add('users', users)]: one statement that inserts a join
    row per user.  It fails as a whole, leaving no join row, when a
    user is not registered (foreign key) or is listed twice (the pair
    player, game is unique).
    Modelled from the spec: the score column of a new row
    ([user-game.entity.ts] is not among the sources) starts at 0, the
    low end of the slot score range 0..11. *)
Definition add_users (g : Game) (us : list User) : M unit :=
  fun db =>
    if forallb (is_registered db) us && distinct (map login us)
    then (Ok tt,
          with_user_games
            (user_games_tbl db ++ map (fun u => mkUserGame (login u) (id g) 0) us) db)
    else (Throw (mkHttpException "SequelizeDatabaseError" INTERNAL_SERVER_ERROR), db).

Definition apply_dto (dto : GameDto) (r : GameRow) : GameRow :=
  mkGameRow (row_id r)
    (match dto_isRanked dto with Some b => b | None => row_isRanked r end)
    (match dto_status dto with Some s => s | None => row_status r end)
    (match dto_invitee dto with Some l => Some l | None => row_invitee r end)
    (row_createdAt r).

(** The effect on the table of the statement
    [update(gameDto, { where: { id: gameDto.id } })] when the database
    runs it: the rows with that key take the attributes the dto
    carries, and the database enumerates the rewritten rows after the
    others from then on; a status outside the ENUM, or a missing key,
    fails the statement and changes nothing. *)
Definition update_effect (dto : GameDto) (db : DB) : DB :=
  match dto_id dto with
  | None => db
  | Some i =>
      if match dto_status dto with Some s => in_status_enum s | None => true end
      then with_games
             (filter (fun r => negb (String.eqb (row_id r) i)) (games_tbl db)
              ++ map (apply_dto dto)
                   (filter (fun r => String.eqb (row_id r) i) (games_tbl db))) db
      else db
  end.

(** [update(...)] called and not awaited: the call hands back a promise
    at once and the statement is on its way to the database; it lands
    later, as a step of its own ([GameUpdateLands] below). *)
Definition update_sent (dto : GameDto) : M unit := ret tt.

(** [destroy({ where: { id } })]: the rows with that key go, and with
    them their join rows; the number of deleted games is returned. *)
Definition destroy (id_ : JsId) : M Z :=
  match id_ with
  | IdUuid i =>
      fun db =>
        (Ok (Z.of_nat (List.length
                         (filter (fun r => String.eqb (row_id r) i) (games_tbl db)))),
         mkDB (users_tbl db)
              (filter (fun r => negb (String.eqb (row_id r) i)) (games_tbl db))
              (filter (fun ug => negb (String.eqb (gameId ug) i)) (user_games_tbl db)))
  | IdText _ | IdNumber _ => database_error
  end.

End GameRepository.
Import GameRepository.

(* ================================================================= *)
(** ** [GameService] *)

Module GameService.

Definition has_login (l : string) (game : Game) : bool :=
  existsb (fun user => String.eqb (login user) l) (users game).

Definition findAll : M (list Game) :=
  try_catch_500 (GameRepository.findAll (fun _ => true)).

(** [findById(id: string)]; at run time the argument is whatever the
    caller passes. *)
Definition findById (id_ : JsId) : M (option Game) :=
  try_catch_500 (GameRepository.findOne_by_id id_).

Definition findOngoing (l : string) : M (list Game) :=
  try_catch_500 (
    ret_ <- GameRepository.findAll (fun r => String.eqb (row_status r) "ongoing") ;;
    ret (filter (fun game => has_login l game) ret_)).

(** [where: { ...(isRanked ? { isRanked: isRanked } : {}) }] *)
Definition findByPlayer (l : string) (isRanked_ : bool) : M (list Game) :=
  try_catch_500 (
    ret_ <- GameRepository.findAll
              (if isRanked_
               then (fun r => Bool.eqb (row_isRanked r) isRanked_)
               else (fun _ => true)) ;;
    ret (filter (fun game => has_login l game) ret_)).

Definition findWaiting (isRanked_ : bool) : M (option Game) :=
  try_catch_500 (
    ret_ <- GameRepository.findOne
              (fun r => String.eqb (row_status r) "waiting"
                        && Bool.eqb (row_isRanked r) isRanked_) ;;
    ret ret_).

(** [game.invitee === login] *)
Definition invitee_is (l : string) (game : Game) : bool :=
  match invitee game with
  | Some i => String.eqb i l
  | None => false
  end.

Definition findPlayable (l : string) : M (list Game) :=
  try_catch_500 (
    ret_ <- GameRepository.findAll
              (fun r => String.eqb (row_status r) "waiting"
                        || String.eqb (row_status r) "invitation") ;;
    let ret_ :=
      filter (fun game =>
                has_login l game
                || invitee_is l game
                || ((Z.of_nat (List.length (users game)) <? 2)
                    && negb (String.eqb (status game) "invitation")))
             ret_ in
    ret ret_).

Definition findInvitation (l : string) : M (list Game) :=
  try_catch_500 (
    GameRepository.findAll
      (fun r => String.eqb (row_status r) "invitation"
                && match row_invitee r with
                   | Some i => String.eqb i l
                   | None => false
                   end)).

Definition create (env : Env) (gameDto : GameDto) : M Game :=
  try_catch_500 (
    ret_ <- GameRepository.create env gameDto ;;
    _ <- GameRepository.add_users ret_ (dto_users gameDto) ;;
    ret (mkGame (id ret_) (isRanked ret_) (status ret_) (invitee ret_)
                (createdAt ret_) (dto_users gameDto))).

(** [return await this.gameRepository.update(gameDto, {...})[0]]: the
    index is taken on the promise, so what is awaited is [undefined]:
    the method resolves to [undefined] ([None]) at once, without
    waiting for the statement, whose failure it never sees. *)
Definition update (gameDto : GameDto) : M (option Z) :=
  try_catch_500 (
    _ <- GameRepository.update_sent gameDto ;;
    ret None).

Definition delete (id_ : JsId) : M Z :=
  try_catch_500 (GameRepository.destroy id_).

End GameService.

(* ================================================================= *)
(** ** The services the user-game controller calls *)

Module UserService.

(** Modelled from the spec: [UserService.findByLogin]
    ([user.service.ts] is not among the sources): identity lookup,
    [findPlayer(login) -> Player | NotFound]. *)
Definition findByLogin (l : string) : M (option User) :=
  query (fun db => find (fun u => String.eqb (login u) l) (users_tbl db)).

End UserService.

Module UserGameService.

(** The user-game service the controller is constructed with.
    [user-game.service.ts] is not among the sources: the controller is
    embedded over any implementation of the methods it calls, with the
    arguments it passes them. *)
Record t : Type := mk
  { findByGame : Z -> M (list UserGame);
    findByUserAndGame : Game -> User -> M (option UserGame);
    create : Game -> User -> Z -> M UserGame;
    update : Game -> Z -> User -> M Z }.

End UserGameService.

(* ================================================================= *)
(** ** [UserGameController] *)

Module UserGameController.

Section Handlers.

(** [constructor(private readonly userGameService: UserGameService, ...)] *)
Variable userGameService : UserGameService.t.

(** [@Post()] [create(@Body('userLogin') userLogin, @Body('gameId', ParseIntPipe) gameId)].
    A body without the field gives [None] (JS [undefined]); [gameId] is
    the number [ParseIntPipe] produced, and that number is what
    [findById] receives. *)
Definition create (userLogin_ : option string) (gameId_ : Z) : M UserGame :=
  match userLogin_ with
  | None | Some EmptyString => throw "Missing parameters" BAD_REQUEST
  | Some l =>
      user <- UserService.findByLogin l ;;
      match user with
      | None => throw "User Not Found" NOT_FOUND
      | Some user =>
          game <- GameService.findById (IdNumber gameId_) ;;
          match game with
          | None => throw "Game Not Found" NOT_FOUND
          | Some game =>
              user_games <- UserGameService.findByGame userGameService gameId_ ;;
              if (2 <=? Z.of_nat (List.length user_games))
              then throw "Game is full" CONFLICT
              else
                match find (fun user_game => String.eqb (userLogin user_game) l)
                           user_games with
                | Some _ => throw "User already in game" CONFLICT
                | None => UserGameService.create userGameService game user 0
                end
          end
      end
  end.

(** [@Patch('game/:id/player/:login')]
    [update(@Param('id', ParseIntPipe) id, @Param('login') login, @Body('score', ParseIntPipe) score)] *)
Definition update (id_ : Z) (login_ : string) (score_ : Z) : M Z :=
  match login_ with
  | EmptyString => throw "Missing parameters" BAD_REQUEST
  | _ =>
      user <- UserService.findByLogin login_ ;;
      match user with
      | None => throw "User Not Found" NOT_FOUND
      | Some user =>
          game <- GameService.findById (IdNumber id_) ;;
          match game with
          | None => throw "Game Not Found" NOT_FOUND
          | Some game =>
              found <- UserGameService.findByUserAndGame userGameService game user ;;
              match found with
              | None => throw "UserGame Not Found" NOT_FOUND
              | Some _ => UserGameService.update userGameService game score_ user
              end
          end
      end
  end.

(** [@Get('game/:id/player/:login')]
    [getByUserAndGame(@Param('id', ParseIntPipe) id, @Param('login') login)] *)
Definition getByUserAndGame (id_ : Z) (login_ : string) : M UserGame :=
  user <- UserService.findByLogin login_ ;;
  match user with
  | None => throw "User Not Found" NOT_FOUND
  | Some user =>
      game <- GameService.findById (IdNumber id_) ;;
      match game with
      | None => throw "Game Not Found" NOT_FOUND
      | Some game =>
          ret_ <- UserGameService.findByUserAndGame userGameService game user ;;
          match ret_ with
          | None => throw "UserGame Not Found" NOT_FOUND
          | Some ret_ => ret ret_
          end
      end
  end.

(** [@Get('game/:id')] [findByGame(@Param('id', ParseIntPipe) id)].
    The service hands back an array, which is truthy even when empty,
    so the [if (!ret)] after the call never throws. *)
Definition findByGame (id_ : Z) : M (list UserGame) :=
  game <- GameService.findById (IdNumber id_) ;;
  match game with
  | None => throw "Game Not Found" NOT_FOUND
  | Some _ =>
      ret_ <- UserGameService.findByGame userGameService id_ ;;
      ret ret_
  end.

End Handlers.

End UserGameController.

(* ================================================================= *)
(** ** [AuthService] *)

Module AuthService.

(** [async verifyTOTP(totp: number, A2FSecret: string): Promise<boolean>].
    The body never looks at [totp], so the representation of a JS
    number is left open. *)
Definition verifyTOTP {number : Type} (totp : number) (A2FSecret : string) : M bool :=
  ret true.

End AuthService.

(* ================================================================= *)
(** ** The client page that waits for a match ([unnamed/part_006]) *)

Module WaitRoom.

Definition TimerId : Type := nat.

(** [socket.emit(event, { auth: Cookies.get("token"), isRanked })] *)
Record Emit : Type := mkEmit
  { event : string; auth : option string; isRanked : bool }.

(** The [Game] component between two events: its state variables, what
    it has registered with the browser and the socket, the cleanup its
    first effect last returned, and what it has sent.
    - [clearance] is [user.clearance] of the context value; 0 also
      stands for a missing one, both being falsy;
    - [loop] is the state variable set by [setLoop];
    - [intervals] are the timers registered by [setInterval] and not
      cleared, each with its delay in milliseconds: the browser calls
      the callback of each of them once every such delay;
    - [cleanup] is the function the first effect returned at its last
      run ([None] when it returned nothing), given by the value of
      [loop] its closure holds: that of the render the effect ran in. *)
Record Page : Type := mkPage
  { clearance : Z;
    token : option string;
    hasFoundGame : bool;
    gameInfo : option string;
    loop : option TimerId;
    intervals : list (TimerId * Z);
    next_timer : TimerId;
    startGame_listeners : nat;
    cleanup : option (option TimerId);
    emitted : list Emit }.

(** [clearInterval(id)]; [clearInterval(undefined)] does nothing. *)
Definition clearInterval (id : option TimerId) (l : list (TimerId * Z))
  : list (TimerId * Z) :=
  match id with
  | None => l
  | Some i => filter (fun iv => negb (Nat.eqb (fst iv) i)) l
  end.

(** The body of the first [useEffect], dependencies [[user]]:
    [if (!user.clearance || user.clearance === 0) return;]
    [setLoop(setInterval(() => socket.emit("joinWaitRoom", ...), 1000));]
    [socket.on("startGame", startGame);]
    [return () => { socket.off("startGame", startGame); clearInterval(loop); };] *)
Definition effect_user (p : Page) : Page :=
  if Z.eqb (clearance p) 0
  then mkPage (clearance p) (token p) (hasFoundGame p) (gameInfo p) (loop p)
              (intervals p) (next_timer p) (startGame_listeners p)
              None (emitted p)
  else mkPage (clearance p) (token p) (hasFoundGame p) (gameInfo p)
              (Some (next_timer p))
              (intervals p ++ [(next_timer p, 1000)])
              (S (next_timer p))
              (S (startGame_listeners p))
              (Some (loop p))
              (emitted p).

(** Running the cleanup the first effect last returned. *)
Definition run_cleanup (p : Page) : Page :=
  match cleanup p with
  | None => p
  | Some captured_loop =>
      mkPage (clearance p) (token p) (hasFoundGame p) (gameInfo p) (loop p)
             (clearInterval captured_loop (intervals p)) (next_timer p)
             (Nat.pred (startGame_listeners p))
             (cleanup p) (emitted p)
  end.

(** The body of the second [useEffect], dependencies [[hasFoundGame]]:
    [if (!hasFoundGame) return; clearInterval(loop);], where [loop] is
    the value of the state variable in the render the effect runs in. *)
Definition effect_found (render_loop : option TimerId) (p : Page) : Page :=
  if negb (hasFoundGame p) then p
  else mkPage (clearance p) (token p) (hasFoundGame p) (gameInfo p) (loop p)
              (clearInterval render_loop (intervals p)) (next_timer p)
              (startGame_listeners p) (cleanup p) (emitted p).

(** The first render: initial state ([loop] undefined), then both
    effects in order, each seeing the [loop] of that render. *)
Definition mount (clearance_ : Z) (token_ : option string) : Page :=
  effect_found None
    (effect_user (mkPage clearance_ token_ false None None [] 0%nat 0%nat None [])).

Inductive Event : Type :=
| UserChanged (clearance_ : Z)
| IntervalFires (id : TimerId)
| StartGameReceived (payload : string).

Definition step (p : Page) (e : Event) : Page :=
  match e with
  | UserChanged c =>
      (* the context value is replaced: the first effect is cleaned up
         and run again *)
      effect_user
        (run_cleanup
           (mkPage c (token p) (hasFoundGame p) (gameInfo p) (loop p)
                   (intervals p) (next_timer p) (startGame_listeners p)
                   (cleanup p) (emitted p)))
  | IntervalFires i =>
      (* the browser calls the callback of a registered interval *)
      if existsb (fun iv => Nat.eqb (fst iv) i) (intervals p)
      then mkPage (clearance p) (token p) (hasFoundGame p) (gameInfo p) (loop p)
                  (intervals p) (next_timer p) (startGame_listeners p)
                  (cleanup p)
                  (emitted p ++ [mkEmit "joinWaitRoom" (token p) true])
      else p
  | StartGameReceived payload =>
      (* [startGame]: [setGameInfo(payload); setHasFoundGame(true);]
         the second effect runs when [hasFoundGame] has changed *)
      match startGame_listeners p with
      | O => p
      | S _ =>
          if hasFoundGame p
          then mkPage (clearance p) (token p) true (Some payload) (loop p)
                      (intervals p) (next_timer p) (startGame_listeners p)
                      (cleanup p) (emitted p)
          else effect_found (loop p)
                 (mkPage (clearance p) (token p) true (Some payload) (loop p)
                         (intervals p) (next_timer p) (startGame_listeners p)
                         (cleanup p) (emitted p))
      end
  end.

Definition run_events (es : list Event) (p : Page) : Page :=
  fold_left step es p.

Definition joinWaitRoom (token_ : option string) : Emit :=
  mkEmit "joinWaitRoom" token_ true.

End WaitRoom.

(* ================================================================= *)
(** ** Vocabulary of the statements *)

Module Spec.

(** Every stored game, loaded with its users: what
    [GameService.findAll] returns. *)
Definition stored_games (db : DB) : list Game :=
  map (include_all db) (games_tbl db).

(** [login] is among the users of [game]. *)
Definition plays (l : string) (game : Game) : Prop :=
  exists user, In user (users game) /\ login user = l.

(** The occupant slots of a game: the user-game rows linked to it. *)
Definition slots (gid : string) (db : DB) : list UserGame :=
  filter (fun ug => String.eqb (gameId ug) gid) (user_games_tbl db).

Definition slots_bounded (db : DB) : Prop :=
  forall gid, (List.length (slots gid db) <= 2)%nat.

Definition status_closed (db : DB) : Prop :=
  Forall (fun r => In (row_status r) status_enum) (games_tbl db).

(** A game [findWaiting isRanked] may pair the caller with. *)
Definition candidate (isRanked_ : bool) (game : Game) : Prop :=
  status game = "waiting" /\ isRanked game = isRanked_.

(** The table enumerates its rows from the oldest to the newest. *)
Definition creation_ordered (db : DB) : Prop :=
  StronglySorted (fun g g' => createdAt g <= createdAt g') (stored_games db).

(** What happens to the two tables: the requests that write to them,
    and the landing of an update statement that was sent without being
    awaited. *)
Inductive Request : Type :=
| GameCreate (env : Env) (gameDto : GameDto)
| GameUpdate (gameDto : GameDto)
| GameUpdateLands (gameDto : GameDto)
| GameDelete (id_ : JsId)
| UserGameCreate (userLogin_ : option string) (gameId_ : Z)
| UserGameUpdate (id_ : Z) (login_ : string) (score_ : Z).

Definition handle (svc : UserGameService.t) (db : DB) (rq : Request) : DB :=
  match rq with
  | GameCreate env gameDto => store (GameService.create env gameDto db)
  | GameUpdate gameDto => store (GameService.update gameDto db)
  | GameUpdateLands gameDto => update_effect gameDto db
  | GameDelete i => store (GameService.delete i db)
  | UserGameCreate l gid => store (UserGameController.create svc l gid db)
  | UserGameUpdate gid l s => store (UserGameController.update svc gid l s db)
  end.

Definition run (svc : UserGameService.t) (rqs : list Request) (db : DB) : DB :=
  fold_left (handle svc) rqs db.

(** Every slot's score lies in 0..11. *)
Definition scores_in_range (db : DB) : Prop :=
  Forall (fun ug => 0 <= score ug <= 11) (user_games_tbl db).

(** A finished game has two slots, one at 11 and the other below. *)
Definition finished_scores_ok (db : DB) : Prop :=
  forall r, In r (games_tbl db) -> row_status r = "finished" ->
    exists a b,
      map score (filter (fun ug => String.eqb (gameId ug) (row_id r)) (user_games_tbl db))
      = [a; b]
      /\ ((a = 11 /\ b < 11) \/ (b = 11 /\ a < 11)).

(** Every slot belongs to a stored game (the foreign key of the join
    table). *)
Definition slots_linked (db : DB) : Prop :=
  forall ug, In ug (user_games_tbl db) -> has_id (gameId ug) db = true.

(** A request that does not create a game with more than two users. *)
Definition at_most_two_users (rq : Request) : Prop :=
  match rq with
  | GameCreate _ gameDto => (List.length (dto_users gameDto) <= 2)%nat
  | _ => True
  end.

(** The scores of the slots of a game, in table order. *)
Definition scores (gid : string) (db : DB) : list Z :=
  map score (slots gid db).

End Spec.
Import Spec.

(* ================================================================= *)
(** ** Sample stores *)

Module Sample.

Definition alice : User := mkUser "alice" 1.
Definition bob : User := mkUser "bob" 1.
Definition carol : User := mkUser "carol" 1.

(** Four games: an ongoing ranked one, a waiting ranked one, a casual
    invitation for carol, and a finished casual one. *)
Definition db_sample : DB :=
  mkDB [alice; bob; carol]
       [ mkGameRow "g1" true "ongoing" None 10;
         mkGameRow "g2" true "waiting" None 20;
         mkGameRow "g3" false "invitation" (Some "carol") 30;
         mkGameRow "g4" false "finished" None 5 ]
       [ mkUserGame "alice" "g1" 3; mkUserGame "bob" "g1" 5;
         mkUserGame "alice" "g2" 0;
         mkUserGame "bob" "g3" 0;
         mkUserGame "alice" "g4" 11; mkUserGame "bob" "g4" 7 ].

(** Two waiting ranked games; the table enumerates the newer first. *)
Definition db_newer_first : DB :=
  mkDB [alice; bob]
       [ mkGameRow "g2" true "waiting" None 20;
         mkGameRow "g1" true "waiting" None 10 ]
       [ mkUserGame "bob" "g2" 0; mkUserGame "alice" "g1" 0 ].

(** Two waiting ranked games, enumerated oldest first, and a casual one. *)
Definition db_oldest_first : DB :=
  mkDB [alice; bob; carol]
       [ mkGameRow "g7" false "waiting" None 5;
         mkGameRow "g1" true "waiting" None 10;
         mkGameRow "g2" true "waiting" None 20 ]
       [ mkUserGame "carol" "g7" 0; mkUserGame "alice" "g1" 0; mkUserGame "bob" "g2" 0 ].

(** Registered users and no game yet. *)
Definition db_users_only : DB := mkDB [alice; bob; carol] [] [].

(** One user-game service to run the handlers with, among the many the
    statements range over: it lists the whole join table for any game,
    and writes what it is given. *)
Definition service : UserGameService.t :=
  UserGameService.mk
    (fun _ => query user_games_tbl)
    (fun game user =>
       query (fun db =>
                find (fun ug => String.eqb (userLogin ug) (login user)
                                && String.eqb (gameId ug) (id game))
                     (user_games_tbl db)))
    (fun game user score_ db =>
       (Ok (mkUserGame (login user) (id game) score_),
        with_user_games
          (user_games_tbl db ++ [mkUserGame (login user) (id game) score_]) db))
    (fun game score_ user db =>
       (Ok 1,
        with_user_games
          (map (fun ug =>
                  if String.eqb (userLogin ug) (login user)
                     && String.eqb (gameId ug) (id game)
                  then mkUserGame (userLogin ug) (gameId ug) score_
                  else ug)
               (user_games_tbl db)) db)).

End Sample.

(* ================================================================= *)
(** ** The client: match history, statistics and the end-of-game text
    ([client/src/components/Profile.tsx] and the units stored with it) *)

Module Client.

(** What [MatchHistory] and [MatchStats] read of an entry of the
    response of [GET /api/user-game/user/:login]: [game.game.isRanked],
    [game.game.status] and [game.score]. *)
Record GameInfo : Type := mkGameInfo
  { isRanked : bool; status : string }.

Record Entry : Type := mkEntry
  { game : GameInfo; score : Z }.

Definition not_waiting (e : Entry) : bool :=
  negb (String.eqb (status (game e)) "waiting").

(** The [forEach] of the effect of [MatchHistory]: the pair
    [(ranked, normal)] handed to [setRankedGames] and [setNormalGames];
    [push] appends at the end. *)
Definition splitGames (data : list Entry) : list Entry * list Entry :=
  fold_left
    (fun (acc : list Entry * list Entry) (e : Entry) =>
       let (ranked, normal) := acc in
       if isRanked (game e) && not_waiting e then (ranked ++ [e], normal)
       else if negb (isRanked (game e)) && not_waiting e then (ranked, normal ++ [e])
       else (ranked, normal))
    data ([], []).

Record Results : Type := mkResults { wins : Z; losses : Z }.

(** The [forEach] of the effects of [MatchStats]:
    [if (game.score === 11) wins++; else losses++;] *)
Definition countResults (games : list Entry) : Results :=
  fold_left
    (fun (acc : Results) (e : Entry) =>
       if Z.eqb (score e) 11
       then mkResults (wins acc + 1) (losses acc)
       else mkResults (wins acc) (losses acc + 1))
    games (mkResults 0 0).

(** The third effect of [MatchStats]: [gameResults]. *)
Definition gameResults (rankedGameResults normalGameResults : Results) : Results :=
  mkResults (wins rankedGameResults + wins normalGameResults)
            (losses rankedGameResults + losses normalGameResults).

(** A number handed to the canvas: a literal, or [k * scale] with the
    product left as written ([scale] is a floating-point factor). *)
Inductive num : Type :=
| Lit (z : Z)
| Scaled (k : Z).

(** The calls [displayTurnText] makes on the [p5] canvas. *)
Inductive P5Call : Type :=
| push
| textSize (n : num)
| textAlign_CENTER_CENTER
| fill (c : Z)
| text (s : string) (x y : num)
| pop.

(** What [displayTurnText] reads of [game]; [players] lists the score
    of each player. *)
Record TurnGame : Type := mkTurnGame
  { isOver : bool;
    isTurnStarted : bool;
    players : list Z;
    myIndex : Z;
    playerToStart : Z }.

(** [displayTurnText(p5, game, scale)]: the calls made, and [false] when
    reading [game.players[0].score] or [game.players[1].score] raises a
    TypeError because the player is missing. *)
Definition displayTurnText (g : TurnGame) : list P5Call * bool :=
  let start := [push; textSize (Scaled 32); textAlign_CENTER_CENTER; fill 255] in
  if isOver g then
    match players g with
    | p0 :: p1 :: _ =>
        let winner := if p0 >? p1 then 0 else 1 in
        (start
           ++ [text "Game Over" (Lit 0) (Lit 0);
               if Z.eqb winner (myIndex g)
               then text "You won!" (Lit 0) (Scaled 50)
               else text "You lost!" (Lit 0) (Scaled 50);
               pop],
         true)
    | _ => (start ++ [text "Game Over" (Lit 0) (Lit 0)], false)
    end
  else if negb (isTurnStarted g) then
    (start
       ++ [if Z.eqb (myIndex g) (playerToStart g)
           then text "Your turn" (Lit 0) (Lit 0)
           else text "Opponent's turn" (Lit 0) (Lit 0);
           pop],
     true)
  else (start ++ [pop], true).

(** The same game seen by the player at index [i]. *)
Definition seen_by (i : Z) (g : TurnGame) : TurnGame :=
  mkTurnGame (isOver g) (isTurnStarted g) (players g) i (playerToStart g).

Definition won : P5Call := text "You won!" (Lit 0) (Scaled 50).
Definition lost : P5Call := text "You lost!" (Lit 0) (Scaled 50).

End Client.

(* ================================================================= *)
(** ** Further vocabulary *)

Module Props.

(** The key of a slot: the player and the game. *)
Definition slot_keys (db : DB) : list (string * string) :=
  map (fun ug => (userLogin ug, gameId ug)) (user_games_tbl db).

(** A request served by the user-game controller. *)
Definition user_game_request (rq : Request) : Prop :=
  match rq with
  | UserGameCreate _ _ | UserGameUpdate _ _ _ => True
  | _ => False
  end.

(** The attributes a dto writes over those of a game. *)
Definition overwrite (dto : GameDto) (g : Game) : Game :=
  mkGame (id g)
    (match dto_isRanked dto with Some b => b | None => isRanked g end)
    (match dto_status dto with Some s => s | None => status g end)
    (match dto_invitee dto with Some l => Some l | None => invitee g end)
    (createdAt g) (users g).

(** Users registered under pairwise different logins, a game with one
    free place and an invitation for carol. *)
Definition db_lobby : DB :=
  mkDB [Sample.alice; Sample.bob; Sample.carol]
       [ mkGameRow "g1" true "waiting" None 10;
         mkGameRow "g2" false "invitation" (Some "carol") 20;
         mkGameRow "g3" true "ongoing" None 30 ]
       [ mkUserGame "alice" "g1" 0;
         mkUserGame "bob" "g2" 0;
         mkUserGame "alice" "g3" 4; mkUserGame "bob" "g3" 2 ].

End Props.
Import Props.

(* ================================================================= *)
(** ** Running the queries *)

Section Queries.

Variable db : DB.

Lemma findAll_run (w : GameRow -> bool) :
  GameRepository.findAll w db
  = (Ok (map (include_all db) (filter w (games_tbl db))), db).
Proof. reflexivity. Qed.

Lemma findAll_filter (w : GameRow -> bool) (p : Game -> bool) :
  (forall r, p (include_all db r) = w r) ->
  map (include_all db) (filter w (games_tbl db)) = filter p (stored_games db).
Proof.
  intros Hpw. unfold stored_games.
  rewrite filter_map_swap. f_equal.
  apply filter_ext. intros r. symmetry. apply Hpw.
Qed.

Lemma has_login_plays (l : string) (game : Game) :
  GameService.has_login l game = true <-> plays l game.
Proof.
  unfold GameService.has_login, plays. rewrite existsb_exists.
  split; intros [u [Hin Hu]]; exists u; split; auto.
  - now apply String.eqb_eq.
  - now apply String.eqb_eq.
Qed.

Lemma invitee_is_eq (l : string) (game : Game) :
  GameService.invitee_is l game = true <-> invitee game = Some l.
Proof.
  unfold GameService.invitee_is. destruct (invitee game) as [i|].
  - rewrite String.eqb_eq. split; congruence.
  - split; discriminate.
Qed.

Lemma findOngoing_run (l : string) :
  GameService.findOngoing l db
  = (Ok (filter (fun g => String.eqb (status g) "ongoing"
                          && GameService.has_login l g) (stored_games db)), db).
Proof.
  unfold GameService.findOngoing, try_catch_500, bind, ret.
  rewrite findAll_run. f_equal. f_equal.
  rewrite (findAll_filter _ (fun g => String.eqb (status g) "ongoing"))
    by reflexivity.
  induction (stored_games db) as [|g gs IH]; simpl; [reflexivity|].
  destruct (String.eqb (status g) "ongoing"); simpl;
    [destruct (GameService.has_login l g)|]; rewrite IH; reflexivity.
Qed.

Lemma findByPlayer_run (l : string) (rk : bool) :
  GameService.findByPlayer l rk db
  = (Ok (filter (fun g => (if rk then isRanked g else true)
                          && GameService.has_login l g) (stored_games db)), db).
Proof.
  unfold GameService.findByPlayer, try_catch_500, bind, ret.
  rewrite findAll_run. f_equal. f_equal.
  rewrite (findAll_filter _ (fun g => if rk then isRanked g else true)).
  - induction (stored_games db) as [|g gs IH]; simpl; [reflexivity|].
    destruct (if rk then isRanked g else true); simpl;
      [destruct (GameService.has_login l g)|]; rewrite IH; reflexivity.
  - intros r. destruct rk; simpl; [|reflexivity].
    destruct (row_isRanked r); reflexivity.
Qed.

Lemma findPlayable_run (l : string) :
  GameService.findPlayable l db
  = (Ok (filter (fun g =>
                   (String.eqb (status g) "waiting"
                    || String.eqb (status g) "invitation")
                   && (GameService.has_login l g
                       || GameService.invitee_is l g
                       || ((Z.of_nat (List.length (users g)) <? 2)
                           && negb (String.eqb (status g) "invitation"))))
                (stored_games db)), db).
Proof.
  unfold GameService.findPlayable, try_catch_500, bind, ret.
  rewrite findAll_run. f_equal. f_equal.
  rewrite (findAll_filter _ (fun g => String.eqb (status g) "waiting"
                                      || String.eqb (status g) "invitation"))
    by reflexivity.
  induction (stored_games db) as [|g gs IH]; simpl; [reflexivity|].
  destruct (String.eqb (status g) "waiting" || String.eqb (status g) "invitation");
    simpl; [|exact IH].
  match goal with |- context [if ?c then _ else _] => destruct c end;
    rewrite IH; reflexivity.
Qed.

Lemma findWaiting_run (rk : bool) :
  GameService.findWaiting rk db
  = (Ok (find (fun g => String.eqb (status g) "waiting"
                        && Bool.eqb (isRanked g) rk) (stored_games db)), db).
Proof.
  unfold GameService.findWaiting, try_catch_500, bind, ret,
    GameRepository.findOne, query, stored_games.
  f_equal. f_equal.
  induction (games_tbl db) as [|r rs IH]; simpl; [reflexivity|].
  destruct (String.eqb (row_status r) "waiting" && Bool.eqb (row_isRanked r) rk);
    simpl; [reflexivity | exact IH].
Qed.

Lemma findById_run (u : string) :
  GameService.findById (IdUuid u) db
  = (Ok (option_map (include_all db)
           (find (fun r => String.eqb (row_id r) u) (games_tbl db))), db).
Proof. reflexivity. Qed.

(** A number never finds a game: the comparison with the UUID key is
    refused by the database and the service answers 500. *)
Lemma findById_number_run (n : Z) :
  GameService.findById (IdNumber n) db
  = (Throw (mkHttpException "SequelizeDatabaseError" INTERNAL_SERVER_ERROR), db).
Proof. reflexivity. Qed.

End Queries.

(* ================================================================= *)
(** ** The queries of [GameService] *)

(** C3. [GameService.findOngoing login] returns, without touching the
    store, exactly the stored games whose status is 'ongoing' and whose
    users include one with that login (in table order), and no others. *)
Theorem findOngoing_exact :
  forall (db : DB) (l : string),
  exists gs,
    GameService.findOngoing l db = (Ok gs, db)
    /\ gs = filter (fun g => String.eqb (status g) "ongoing"
                             && GameService.has_login l g) (stored_games db)
    /\ forall g, In g gs
                 <-> In g (stored_games db) /\ status g = "ongoing" /\ plays l g.
Proof.
  intros db l. eexists. split; [apply findOngoing_run|]. split; [reflexivity|].
  intros g. rewrite filter_In, andb_true_iff, String.eqb_eq, has_login_plays.
  tauto.
Qed.

(** C10. [GameService.findByPlayer login true] returns exactly the
    player's ranked games, while [findByPlayer login false] returns
    every game of the player whatever its [isRanked] flag. *)
Theorem findByPlayer_ranked_filter_asymmetric :
  forall (db : DB) (l : string),
    (exists gs,
        GameService.findByPlayer l true db = (Ok gs, db)
        /\ forall g, In g gs
                     <-> In g (stored_games db) /\ plays l g /\ isRanked g = true)
    /\ (exists gs,
           GameService.findByPlayer l false db = (Ok gs, db)
           /\ forall g, In g gs <-> In g (stored_games db) /\ plays l g).
Proof.
  intros db l. split; eexists; (split; [apply findByPlayer_run|]); intros g;
    rewrite filter_In, andb_true_iff, has_login_plays; intuition.
Qed.

(** C9. Every game returned by [GameService.findPlayable login] has
    status 'waiting' or 'invitation' and the login is among its users,
    or is its invitee, or the game has fewer than 2 users and is not an
    invitation; so an invitation is offered only to its invitee or to a
    participant. *)
Theorem findPlayable_sound :
  forall (db : DB) (l : string),
  exists gs,
    GameService.findPlayable l db = (Ok gs, db)
    /\ (forall g, In g gs ->
          In g (stored_games db)
          /\ (status g = "waiting" \/ status g = "invitation")
          /\ (plays l g
              \/ invitee g = Some l
              \/ ((List.length (users g) < 2)%nat /\ status g <> "invitation")))
    /\ (forall g, In g gs -> status g = "invitation" ->
          plays l g \/ invitee g = Some l).
Proof.
  intros db l. eexists. split; [apply findPlayable_run|].
  assert (Hmain : forall g,
    In g (filter (fun g =>
                     (String.eqb (status g) "waiting"
                      || String.eqb (status g) "invitation")
                     && (GameService.has_login l g
                         || GameService.invitee_is l g
                         || ((Z.of_nat (List.length (users g)) <? 2)
                             && negb (String.eqb (status g) "invitation"))))
                 (stored_games db)) ->
    In g (stored_games db)
    /\ (status g = "waiting" \/ status g = "invitation")
    /\ (plays l g
        \/ invitee g = Some l
        \/ ((List.length (users g) < 2)%nat /\ status g <> "invitation"))).
  { intros g Hg. apply filter_In in Hg. destruct Hg as [Hin Hg].
    apply andb_true_iff in Hg. destruct Hg as [Hst Hor].
    split; [exact Hin|]. split.
    - apply orb_true_iff in Hst. destruct Hst as [H|H];
        apply String.eqb_eq in H; auto.
    - apply orb_true_iff in Hor. destruct Hor as [Hor|Hfree].
      + apply orb_true_iff in Hor. destruct Hor as [H|H].
        * left. now apply has_login_plays.
        * right. left. now apply invitee_is_eq.
      + right. right. apply andb_true_iff in Hfree. destruct Hfree as [Hlt Hni].
        apply Z.ltb_lt in Hlt. apply negb_true_iff in Hni.
        apply String.eqb_neq in Hni. split; [lia | exact Hni]. }
  split; [exact Hmain|].
  intros g Hg Hinv. destruct (Hmain g Hg) as [_ [_ [H|[H|[_ H]]]]]; auto.
  contradiction.
Qed.

(* ================================================================= *)
(** ** Matchmaking: [findWaiting] *)

Section FirstMatch.

Context {A : Type}.
Variable f : A -> bool.

Lemma find_first (l : list A) (x : A) :
  find f l = Some x ->
  f x = true
  /\ exists pre post, l = pre ++ x :: post /\ forall y, In y pre -> f y = false.
Proof.
  induction l as [|a l IH]; simpl; [discriminate|].
  destruct (f a) eqn:Hfa.
  - intros Heq. injection Heq as ->. split; [exact Hfa|].
    exists [], l. split; [reflexivity|]. intros y [].
  - intros Hfind. destruct (IH Hfind) as [Hx [pre [post [-> Hpre]]]].
    split; [exact Hx|]. exists (a :: pre), post. split; [reflexivity|].
    intros y [<-|Hy]; auto.
Qed.

Lemma find_none_iff (l : list A) :
  find f l = None <-> forall y, In y l -> f y = false.
Proof.
  split; [apply find_none|].
  induction l as [|a l IH]; simpl; [reflexivity|].
  intros Hall. rewrite (Hall a (or_introl eq_refl)). apply IH.
  intros y Hy. apply Hall. now right.
Qed.

Variable R : A -> A -> Prop.

Lemma sorted_after (pre post : list A) (x : A) :
  StronglySorted R (pre ++ x :: post) -> Forall (R x) post.
Proof.
  induction pre as [|a pre IH]; simpl; intros Hs;
    apply StronglySorted_inv in Hs; destruct Hs as [Hs Hall]; auto.
Qed.

End FirstMatch.

Lemma candidate_test (rk : bool) (g : Game) :
  String.eqb (status g) "waiting" && Bool.eqb (isRanked g) rk = true
  <-> candidate rk g.
Proof.
  unfold candidate. rewrite andb_true_iff, String.eqb_eq, Bool.eqb_true_iff.
  tauto.
Qed.

(** C6 (as amended). [GameService.findWaiting isRanked] never crosses
    the mode partition: the game it returns has status 'waiting' and the
    requested [isRanked] flag, and it returns one whenever a compatible
    waiting game is stored.  The game chosen is the first compatible one
    in the table's enumeration order; it is the oldest candidate when
    the table enumerates its rows in creation order. *)
Theorem findWaiting_first_candidate :
  forall (db : DB) (rk : bool),
  exists o,
    GameService.findWaiting rk db = (Ok o, db)
    /\ (o = None <-> forall g, In g (stored_games db) -> ~ candidate rk g)
    /\ (forall g, o = Some g ->
          candidate rk g
          /\ (exists pre post,
                 stored_games db = pre ++ g :: post
                 /\ forall g', In g' pre -> ~ candidate rk g')
          /\ (creation_ordered db ->
              forall g', In g' (stored_games db) -> candidate rk g' ->
                         createdAt g <= createdAt g')).
Proof.
  intros db rk. eexists. split; [apply findWaiting_run|]. split.
  - rewrite find_none_iff. split; intros H g Hg.
    + rewrite <- candidate_test, (H g Hg). discriminate.
    + apply not_true_is_false. rewrite candidate_test. now apply H.
  - intros g Hfind. apply find_first in Hfind.
    destruct Hfind as [Hg [pre [post [Heq Hpre]]]].
    apply candidate_test in Hg. split; [exact Hg|]. split.
    + exists pre, post. split; [exact Heq|]. intros g' Hg'.
      rewrite <- candidate_test, (Hpre g' Hg'). discriminate.
    + unfold creation_ordered. rewrite Heq. intros Hsorted g' Hin Hcand.
      apply in_app_or in Hin. destruct Hin as [Hin|[<-|Hin]].
      * apply candidate_test in Hcand. rewrite (Hpre g' Hin) in Hcand.
        discriminate.
      * lia.
      * apply sorted_after in Hsorted.
        rewrite Forall_forall in Hsorted. now apply Hsorted.
Qed.

(** C6, the claim as written fails: on a table that enumerates a newer
    waiting ranked game before an older one, [findWaiting true] does not
    select the oldest compatible candidate. *)
Lemma findWaiting_not_oldest :
  ~ (forall g,
        GameService.findWaiting true Sample.db_newer_first
        = (Ok (Some g), Sample.db_newer_first) ->
        forall g', In g' (stored_games Sample.db_newer_first) ->
                   candidate true g' -> createdAt g <= createdAt g').
Proof.
  intros H.
  specialize (H (mkGame "g2" true "waiting" None 20 [Sample.bob]) eq_refl
                (mkGame "g1" true "waiting" None 10 [Sample.alice])).
  assert (Hle : 20 <= 10).
  { apply H.
    - right. left. reflexivity.
    - split; reflexivity. }
  lia.
Qed.

(* ================================================================= *)
(** ** Second factor *)

(** C8. [AuthService.verifyTOTP] resolves to [true] for every TOTP value
    and every secret, and leaves the store alone. *)
Theorem verifyTOTP_accepts_everything :
  forall (number : Type) (totp : number) (A2FSecret : string) (db : DB),
    AuthService.verifyTOTP totp A2FSecret db = (Ok true, db).
Proof. intros number totp A2FSecret db. reflexivity. Qed.


(* ================================================================= *)
(** ** Lists *)

Section ExistsFind.

Context {A : Type}.
Variable f : A -> bool.

Lemma existsb_find (l : list A) :
  existsb f l = true -> exists x, find f l = Some x /\ In x l /\ f x = true.
Proof.
  induction l as [|a l IH]; simpl; [discriminate|].
  destruct (f a) eqn:Hfa.
  - intros _. exists a. auto.
  - simpl. intros H. destruct (IH H) as [x [Hx [Hin Hfx]]]. exists x. auto.
Qed.

Lemma find_existsb (l : list A) :
  existsb f l = match find f l with Some _ => true | None => false end.
Proof.
  induction l as [|a l IH]; simpl; [reflexivity|].
  destruct (f a); simpl; [reflexivity | exact IH].
Qed.

End ExistsFind.

Section FilterLength.

Context {A : Type}.

Lemma filter_filter_length (p q : A -> bool) (l : list A) :
  (List.length (filter p (filter q l)) <= List.length (filter p l))%nat.
Proof.
  induction l as [|a l IH]; simpl; [lia|].
  destruct (q a); simpl; destruct (p a); simpl; lia.
Qed.

Lemma filter_nil_length (p : A -> bool) (l : list A) :
  (forall a, In a l -> p a = false) -> List.length (filter p l) = 0%nat.
Proof.
  intros Hp. induction l as [|a l IH]; simpl; [reflexivity|].
  rewrite (Hp a (or_introl eq_refl)). apply IH. intros b Hb. apply Hp. now right.
Qed.

Lemma filter_le_length (p : A -> bool) (l : list A) :
  (List.length (filter p l) <= List.length l)%nat.
Proof.
  induction l as [|a l IH]; simpl; [lia|]. destruct (p a); simpl; lia.
Qed.

End FilterLength.

(* ================================================================= *)
(** ** The answers of the user-game handlers *)

Section HandlerAnswers.

Variable svc : UserGameService.t.
Variable db : DB.

Lemma findByLogin_run (l : string) :
  UserService.findByLogin l db
  = (Ok (find (fun u => String.eqb (login u) l) (users_tbl db)), db).
Proof. reflexivity. Qed.

(** [create] always throws: a missing login is a Bad Request, an
    unknown login is Not Found, and for a known login the lookup of the
    game with the parsed number is refused by the database. *)
Lemma create_answer (ul : option string) (n : Z) :
  UserGameController.create svc ul n db
  = (Throw
       match ul with
       | None | Some EmptyString => mkHttpException "Missing parameters" BAD_REQUEST
       | Some l =>
           if existsb (fun u => String.eqb (login u) l) (users_tbl db)
           then mkHttpException "SequelizeDatabaseError" INTERNAL_SERVER_ERROR
           else mkHttpException "User Not Found" NOT_FOUND
       end, db).
Proof.
  destruct ul as [[|c s]|]; try reflexivity.
  unfold UserGameController.create, bind.
  rewrite findByLogin_run, find_existsb.
  destruct (find _ (users_tbl db)); reflexivity.
Qed.

Lemma update_answer (n : Z) (l : string) (s : Z) :
  UserGameController.update svc n l s db
  = (Throw
       match l with
       | EmptyString => mkHttpException "Missing parameters" BAD_REQUEST
       | _ =>
           if existsb (fun u => String.eqb (login u) l) (users_tbl db)
           then mkHttpException "SequelizeDatabaseError" INTERNAL_SERVER_ERROR
           else mkHttpException "User Not Found" NOT_FOUND
       end, db).
Proof.
  destruct l as [|c l']; [reflexivity|].
  unfold UserGameController.update, bind.
  rewrite findByLogin_run, find_existsb.
  destruct (find _ (users_tbl db)); reflexivity.
Qed.

Lemma getByUserAndGame_answer (n : Z) (l : string) :
  UserGameController.getByUserAndGame svc n l db
  = (Throw
       (if existsb (fun u => String.eqb (login u) l) (users_tbl db)
        then mkHttpException "SequelizeDatabaseError" INTERNAL_SERVER_ERROR
        else mkHttpException "User Not Found" NOT_FOUND), db).
Proof.
  unfold UserGameController.getByUserAndGame, bind.
  rewrite findByLogin_run, find_existsb.
  destruct (find _ (users_tbl db)); reflexivity.
Qed.

Lemma findByGame_answer (n : Z) :
  UserGameController.findByGame svc n db
  = (Throw (mkHttpException "SequelizeDatabaseError" INTERNAL_SERVER_ERROR), db).
Proof. reflexivity. Qed.

Lemma create_store (ul : option string) (n : Z) :
  store (UserGameController.create svc ul n db) = db.
Proof. now rewrite create_answer. Qed.

Lemma update_store (n : Z) (l : string) (s : Z) :
  store (UserGameController.update svc n l s db) = db.
Proof. now rewrite update_answer. Qed.

End HandlerAnswers.

(* ================================================================= *)
(** ** Writing games *)

Lemma in_status_enum_In (s : string) :
  in_status_enum s = true <-> In s status_enum.
Proof.
  unfold in_status_enum. rewrite existsb_exists. split.
  - intros [x [Hin Heq]]. apply String.eqb_eq in Heq. now subst.
  - intros Hin. exists s. split; [exact Hin | apply String.eqb_refl].
Qed.

Section GameWrites.

Variable db : DB.

(** A [create] throws Internal Server Error; it stores nothing when the
    game row is refused, and the game row alone when linking the users
    fails.  Otherwise it stores the game row and a slot per user. *)
Lemma game_create_cases (env : Env) (dto : GameDto) :
  (exists msg,
      GameService.create env dto db
      = (Throw (mkHttpException msg INTERNAL_SERVER_ERROR), db))
  \/ (exists i rk s us,
         dto_isRanked dto = Some rk
         /\ dto_status dto = Some s
         /\ in_status_enum s = true
         /\ has_id i db = false
         /\ (us = [] \/ us = dto_users dto)
         /\ store (GameService.create env dto db)
            = mkDB (users_tbl db)
                   (games_tbl db ++ [mkGameRow i rk s (dto_invitee dto) (now env)])
                   (user_games_tbl db
                      ++ map (fun u => mkUserGame (login u) i 0) us)).
Proof.
  unfold GameService.create, try_catch_500, bind, GameRepository.create.
  destruct (dto_isRanked dto) as [rk|]; [|left; eexists; reflexivity].
  destruct (dto_status dto) as [s|]; [|left; eexists; reflexivity].
  destruct (in_status_enum s) eqn:Hs; [|left; eexists; reflexivity].
  destruct (has_id _ db) eqn:Hid; [left; eexists; reflexivity|].
  cbn [andb negb]. unfold add_users.
  cbn [users_tbl user_games_tbl with_games id].
  right.
  destruct (forallb _ (dto_users dto) && distinct (map login (dto_users dto))).
  - eexists _, rk, s, (dto_users dto).
    repeat split; try reflexivity; [exact Hs | exact Hid | now right].
  - eexists _, rk, s, [].
    repeat split; try reflexivity; [exact Hs | exact Hid | now left |].
    unfold store, with_games. cbn. now rewrite app_nil_r.
Qed.

Lemma game_create_ok (env : Env) (dto : GameDto) (g : Game) (db' : DB) :
  GameService.create env dto db = (Ok g, db') ->
  exists i rk s,
    i = match dto_id dto with Some i => i | None => fresh_id env end
    /\ dto_isRanked dto = Some rk
    /\ dto_status dto = Some s
    /\ in_status_enum s = true
    /\ has_id i db = false
    /\ g = mkGame i rk s (dto_invitee dto) (now env) (dto_users dto)
    /\ db' = mkDB (users_tbl db)
                  (games_tbl db ++ [mkGameRow i rk s (dto_invitee dto) (now env)])
                  (user_games_tbl db
                     ++ map (fun u => mkUserGame (login u) i 0) (dto_users dto)).
Proof.
  unfold GameService.create, try_catch_500, bind, GameRepository.create.
  destruct (dto_isRanked dto) as [rk|]; [|discriminate].
  destruct (dto_status dto) as [s|]; [|discriminate].
  destruct (in_status_enum s) eqn:Hs; [|discriminate].
  destruct (has_id _ db) eqn:Hid; [discriminate|].
  cbn [andb negb]. unfold add_users.
  cbn [users_tbl user_games_tbl with_games id].
  destruct (forallb _ (dto_users dto) && distinct (map login (dto_users dto)));
    [|discriminate].
  cbn. intros Heq. injection Heq as <- <-.
  eexists _, rk, s. repeat split; try reflexivity; assumption.
Qed.

Lemma game_create_rejects (env : Env) (dto : GameDto) :
  (forall s, dto_status dto = Some s -> ~ In s status_enum) ->
  exists msg,
    GameService.create env dto db
    = (Throw (mkHttpException msg INTERNAL_SERVER_ERROR), db).
Proof.
  intros Hbad. destruct (game_create_cases env dto) as [H|[i [rk [s [us H]]]]];
    [exact H|].
  destruct H as [_ [Hs [Hin _]]]. apply in_status_enum_In in Hin.
  now destruct (Hbad s Hs).
Qed.

Lemma game_update_run (dto : GameDto) :
  GameService.update dto db = (Ok None, db).
Proof. reflexivity. Qed.

Lemma update_effect_rejects (dto : GameDto) (s : string) :
  dto_status dto = Some s -> ~ In s status_enum -> update_effect dto db = db.
Proof.
  intros Hs Hbad. unfold update_effect. rewrite Hs.
  destruct (in_status_enum s) eqn:Hin.
  - apply in_status_enum_In in Hin. contradiction.
  - destruct (dto_id dto); reflexivity.
Qed.

Lemma update_effect_user_games (dto : GameDto) :
  user_games_tbl (update_effect dto db) = user_games_tbl db.
Proof.
  unfold update_effect. destruct (dto_id dto); [|reflexivity].
  destruct (match dto_status dto with Some s => in_status_enum s | None => true end);
    reflexivity.
Qed.

Lemma update_effect_users (dto : GameDto) :
  users_tbl (update_effect dto db) = users_tbl db.
Proof.
  unfold update_effect. destruct (dto_id dto); [|reflexivity].
  destruct (match dto_status dto with Some s => in_status_enum s | None => true end);
    reflexivity.
Qed.

(** A landed update keeps the rows, up to their order and to the
    attributes written: a row of the table afterwards is a former row,
    or a former row with the dto applied. *)
Lemma update_effect_rows (dto : GameDto) (r : GameRow) :
  In r (games_tbl (update_effect dto db)) ->
  In r (games_tbl db)
  \/ exists r0, In r0 (games_tbl db) /\ r = apply_dto dto r0
                /\ forall s, dto_status dto = Some s -> In s status_enum.
Proof.
  unfold update_effect. destruct (dto_id dto) as [i|]; [|now left].
  destruct (dto_status dto) as [s|] eqn:Hs.
  - destruct (in_status_enum s) eqn:Hin; [|now left].
    apply in_status_enum_In in Hin. cbn [games_tbl with_games]. intros Hr.
    apply in_app_or in Hr. destruct Hr as [Hr|Hr].
    + apply filter_In in Hr. now left.
    + apply in_map_iff in Hr. destruct Hr as [r0 [<- Hr0]].
      apply filter_In in Hr0. right. exists r0. repeat split; try tauto.
      intros s' Hs'. now injection Hs' as <-.
  - cbn [games_tbl with_games]. intros Hr.
    apply in_app_or in Hr. destruct Hr as [Hr|Hr].
    + apply filter_In in Hr. now left.
    + apply in_map_iff in Hr. destruct Hr as [r0 [<- Hr0]].
      apply filter_In in Hr0. right. exists r0. repeat split; try tauto.
      intros s' Hs'. discriminate.
Qed.

Lemma has_id_update_effect (dto : GameDto) (j : string) :
  has_id j (update_effect dto db) = has_id j db.
Proof.
  unfold update_effect. destruct (dto_id dto) as [i|]; [|reflexivity].
  destruct (match dto_status dto with Some s => in_status_enum s | None => true end);
    [|reflexivity].
  unfold has_id. cbn [games_tbl with_games]. rewrite existsb_app.
  induction (games_tbl db) as [|r rs IH]; [reflexivity|].
  cbn [filter map existsb].
  destruct (String.eqb (row_id r) i) eqn:Hri; cbn [negb filter map existsb apply_dto row_id].
  - rewrite <- IH. destruct (String.eqb (row_id r) j); cbn.
    + now rewrite orb_true_r.
    + reflexivity.
  - rewrite <- IH. now rewrite orb_assoc.
Qed.

End GameWrites.

Lemma handle_status_closed (svc : UserGameService.t) (db : DB) (rq : Request) :
  status_closed db -> status_closed (handle svc db rq).
Proof.
  unfold status_closed. intros Hc.
  destruct rq as [env dto|dto|dto|i|ul gid|gid l s]; cbn [handle].
  - destruct (game_create_cases db env dto) as [[msg ->]|[i [rk [s [us H]]]]];
      [exact Hc|].
    destruct H as [_ [_ [Hin [_ [_ ->]]]]]. cbn [games_tbl].
    apply Forall_app. split; [exact Hc|]. constructor; [|constructor].
    now apply in_status_enum_In.
  - exact Hc.
  - rewrite Forall_forall in *. intros r Hr.
    destruct (update_effect_rows db dto r Hr) as [Hold|[r0 [Hr0 [-> Hok]]]];
      [now apply Hc|].
    unfold apply_dto. cbn [row_status].
    destruct (dto_status dto) as [s|]; [now apply Hok | now apply Hc].
  - destruct i as [i| |]; try exact Hc.
    unfold GameService.delete, try_catch_500, GameRepository.destroy, store.
    cbn [snd games_tbl]. rewrite Forall_forall in *. intros r Hr.
    apply filter_In in Hr. now apply Hc.
  - now rewrite create_store.
  - now rewrite update_store.
Qed.

Lemma run_status_closed (svc : UserGameService.t) (rqs : list Request) :
  forall db, status_closed db -> status_closed (run svc rqs db).
Proof.
  unfold run. induction rqs as [|rq rqs IH]; intros db Hc; simpl; [exact Hc|].
  apply IH. now apply handle_status_closed.
Qed.

(** C2. The status of every stored game is one of ongoing, finished,
    abandoned, waiting, invitation, whatever requests are served: a
    [create] whose status is outside the set (or missing) throws and
    stores nothing, an [update] with such a status changes nothing,
    neither when it is sent nor when its statement lands, and no
    sequence of requests leads out of the set. *)
Theorem status_always_in_enum :
  forall (svc : UserGameService.t) (db : DB),
    (status_closed db -> forall rqs, status_closed (run svc rqs db))
    /\ (forall env dto,
           (forall s, dto_status dto = Some s -> ~ In s status_enum) ->
           exists msg,
             GameService.create env dto db
             = (Throw (mkHttpException msg INTERNAL_SERVER_ERROR), db))
    /\ (forall dto s,
           dto_status dto = Some s -> ~ In s status_enum ->
           store (GameService.update dto db) = db)
    /\ (forall dto s,
           dto_status dto = Some s -> ~ In s status_enum ->
           update_effect dto db = db).
Proof.
  intros svc db. split; [|split; [|split]].
  - intros Hc rqs. now apply run_status_closed.
  - intros env dto. apply game_create_rejects.
  - intros dto s _ _. reflexivity.
  - intros dto s. apply update_effect_rejects.
Qed.

(* ================================================================= *)
(** ** Occupant slots *)

Section SlotsAcrossRequests.

Variable svc : UserGameService.t.
Variable db : DB.
Hypothesis Hlinked : slots_linked db.
Hypothesis Hbounded : slots_bounded db.

Lemma free_key_has_no_slot (i : string) :
  has_id i db = false -> List.length (slots i db) = 0%nat.
Proof.
  intros Hfree. apply filter_nil_length. intros ug Hug.
  destruct (String.eqb_spec (gameId ug) i) as [<-|]; [|reflexivity].
  rewrite (Hlinked ug Hug) in Hfree. discriminate.
Qed.

Lemma game_create_slots (env : Env) (dto : GameDto) :
  (List.length (dto_users dto) <= 2)%nat ->
  slots_linked (store (GameService.create env dto db))
  /\ slots_bounded (store (GameService.create env dto db)).
Proof.
  intros Htwo.
  destruct (game_create_cases db env dto) as [[msg ->]|[i [rk [s [us H]]]]];
    [split; assumption|].
  destruct H as [_ [_ [_ [Hfree [Hus ->]]]]].
  assert (Hlen : (List.length us <= 2)%nat).
  { destruct Hus as [->| ->]; [cbn; lia | exact Htwo]. }
  split.
  - intros ug Hug. cbn [user_games_tbl] in Hug. unfold has_id.
    cbn [games_tbl]. rewrite existsb_app. apply in_app_or in Hug.
    destruct Hug as [Hug|Hug].
    + apply Hlinked in Hug. unfold has_id in Hug. now rewrite Hug.
    + apply in_map_iff in Hug. destruct Hug as [u [<- _]].
      cbn. rewrite String.eqb_refl. apply orb_true_r.
  - intros g. unfold slots. cbn [user_games_tbl].
    rewrite filter_app, length_app. fold (slots g db).
    destruct (String.eqb_spec g i) as [->|Hne].
    + rewrite (free_key_has_no_slot i Hfree).
      pose proof (filter_le_length (fun ug => String.eqb (gameId ug) i)
                    (map (fun u => mkUserGame (login u) i 0) us)) as Hle.
      rewrite length_map in Hle. lia.
    + rewrite (filter_nil_length _ (map _ us)).
      * specialize (Hbounded g). lia.
      * intros ug Hug. apply in_map_iff in Hug. destruct Hug as [u [<- _]].
        cbn. apply String.eqb_neq. congruence.
Qed.

Lemma update_lands_slots (dto : GameDto) :
  slots_linked (update_effect dto db) /\ slots_bounded (update_effect dto db).
Proof.
  split.
  - intros ug Hug. rewrite update_effect_user_games in Hug.
    rewrite has_id_update_effect. now apply Hlinked.
  - intros g. unfold slots. rewrite update_effect_user_games. apply Hbounded.
Qed.

Lemma game_delete_slots (i : JsId) :
  slots_linked (store (GameService.delete i db))
  /\ slots_bounded (store (GameService.delete i db)).
Proof.
  destruct i as [i| |]; try (split; assumption).
  unfold GameService.delete, try_catch_500, GameRepository.destroy, store.
  cbn [snd]. split.
  - intros ug Hug. cbn [user_games_tbl] in Hug. apply filter_In in Hug.
    destruct Hug as [Hug Hkeep]. apply Hlinked in Hug.
    unfold has_id in *. cbn [games_tbl].
    apply existsb_exists in Hug. destruct Hug as [r [Hr Hid]].
    apply existsb_exists. exists r. split; [|exact Hid].
    apply filter_In. split; [exact Hr|].
    apply String.eqb_eq in Hid. now rewrite Hid.
  - intros g. unfold slots. cbn [user_games_tbl].
    etransitivity; [apply filter_filter_length | apply Hbounded].
Qed.

Lemma handle_slots (rq : Request) :
  at_most_two_users rq ->
  slots_linked (handle svc db rq) /\ slots_bounded (handle svc db rq).
Proof.
  destruct rq as [env dto|dto|dto|i|ul gid|gid l s];
    cbn [handle at_most_two_users]; intros Htwo.
  - now apply game_create_slots.
  - split; assumption.
  - apply update_lands_slots.
  - apply game_delete_slots.
  - rewrite create_store. split; assumption.
  - rewrite update_store. split; assumption.
Qed.

End SlotsAcrossRequests.

Lemma run_slots (svc : UserGameService.t) (rqs : list Request) :
  forall db,
    slots_linked db -> slots_bounded db ->
    Forall at_most_two_users rqs ->
    slots_linked (run svc rqs db) /\ slots_bounded (run svc rqs db).
Proof.
  unfold run. induction rqs as [|rq rqs IH]; intros db Hl Hb Hall; simpl;
    [split; assumption|].
  apply Forall_cons_iff in Hall. destruct Hall as [Hrq Hall].
  destruct (handle_slots svc db Hl Hb rq Hrq) as [Hl' Hb'].
  now apply IH.
Qed.



(* ================================================================= *)
(** ** Scores *)

Lemma handle_scores_in_range (svc : UserGameService.t) (db : DB) (rq : Request) :
  scores_in_range db -> scores_in_range (handle svc db rq).
Proof.
  unfold scores_in_range. intros Hr.
  destruct rq as [env dto|dto|dto|i|ul gid|gid l s]; cbn [handle].
  - destruct (game_create_cases db env dto) as [[msg ->]|[i [rk [s [us H]]]]];
      [exact Hr|].
    destruct H as [_ [_ [_ [_ [_ ->]]]]]. cbn [user_games_tbl].
    apply Forall_app. split; [exact Hr|].
    apply Forall_forall. intros ug Hug. apply in_map_iff in Hug.
    destruct Hug as [u [<- _]]. cbn. lia.
  - exact Hr.
  - now rewrite update_effect_user_games.
  - destruct i as [i| |]; try exact Hr.
    unfold GameService.delete, try_catch_500, GameRepository.destroy, store.
    cbn [snd user_games_tbl]. rewrite Forall_forall in *. intros ug Hug.
    apply filter_In in Hug. now apply Hr.
  - now rewrite create_store.
  - now rewrite update_store.
Qed.

Lemma run_scores_in_range (svc : UserGameService.t) (rqs : list Request) :
  forall db, scores_in_range db -> scores_in_range (run svc rqs db).
Proof.
  unfold run. induction rqs as [|rq rqs IH]; intros db Hr; simpl; [exact Hr|].
  apply IH. now apply handle_scores_in_range.
Qed.


(* ================================================================= *)
(** ** Terminal matches: status against scores *)

Lemma handler_games (svc : UserGameService.t) (db : DB) :
  (forall ul n, games_tbl (store (UserGameController.create svc ul n db)) = games_tbl db)
  /\ (forall n l s,
         games_tbl (store (UserGameController.update svc n l s db)) = games_tbl db).
Proof.
  split; intros.
  - now rewrite create_store.
  - now rewrite update_store.
Qed.

Lemma created_slots (db : DB) (gs : list GameRow) (i j : string) (us : list User) :
  slots j (mkDB (users_tbl db) gs
             (user_games_tbl db ++ map (fun u => mkUserGame (login u) i 0) us))
  = slots j db ++ (if String.eqb i j
                   then map (fun u => mkUserGame (login u) i 0) us
                   else []).
Proof.
  unfold slots. cbn [user_games_tbl]. rewrite filter_app. f_equal.
  destruct (String.eqb i j) eqn:Hij.
  - induction us as [|u us IH]; [reflexivity|].
    cbn [map filter gameId]. rewrite Hij. now rewrite IH.
  - induction us as [|u us IH]; [reflexivity|].
    cbn [map filter gameId]. now rewrite Hij.
Qed.



(* ================================================================= *)
(** ** The wait-room page: polling and the stale cleanup *)

Section WaitRoomFacts.

Import WaitRoom.

Lemma mount_with_clearance (c : Z) (tok : option string) :
  c <> 0 ->
  mount c tok
  = mkPage c tok false None (Some 0%nat) [(0%nat, 1000)] 1%nat 1%nat (Some None) [].
Proof.
  intros Hc. unfold mount, effect_user. cbn [clearance].
  apply Z.eqb_neq in Hc. rewrite Hc. reflexivity.
Qed.

Lemma mount_without_clearance (tok : option string) :
  mount 0 tok = mkPage 0 tok false None None [] 0%nat 0%nat None [].
Proof. reflexivity. Qed.

(** Firing a registered interval [n] times sends [n] requests and
    changes nothing else. *)
Lemma fires_emit (i : TimerId) (n : nat) (p : Page) :
  existsb (fun iv => Nat.eqb (fst iv) i) (intervals p) = true ->
  run_events (repeat (IntervalFires i) n) p
  = mkPage (clearance p) (token p) (hasFoundGame p) (gameInfo p) (loop p)
           (intervals p) (next_timer p) (startGame_listeners p) (cleanup p)
           (emitted p ++ repeat (joinWaitRoom (token p)) n).
Proof.
  revert p. induction n as [|n IH]; intros p Hin.
  - cbn. rewrite app_nil_r. now destruct p.
  - cbn [repeat run_events fold_left step]. rewrite Hin.
    fold (run_events (repeat (IntervalFires i) n)
            (mkPage (clearance p) (token p) (hasFoundGame p) (gameInfo p) (loop p)
               (intervals p) (next_timer p) (startGame_listeners p) (cleanup p)
               (emitted p ++ [mkEmit "joinWaitRoom" (token p) true]))).
    rewrite IH by exact Hin.
    cbn [clearance token hasFoundGame gameInfo loop intervals next_timer
         startGame_listeners cleanup emitted].
    rewrite <- app_assoc. reflexivity.
Qed.

(** With no interval registered, no firing sends anything. *)
Lemma fires_nothing (ids : list TimerId) (p : Page) :
  intervals p = [] -> run_events (map IntervalFires ids) p = p.
Proof.
  intros Hnone. induction ids as [|i ids IH]; [reflexivity|].
  cbn [map run_events fold_left step]. rewrite Hnone. cbn [existsb].
  exact IH.
Qed.

Lemma run_events_app (es es' : list Event) (p : Page) :
  run_events (es ++ es') p = run_events es' (run_events es p).
Proof. apply fold_left_app. Qed.

End WaitRoomFacts.

(** C7. Once mounted for a user with a clearance, the page sends
    joinWaitRoom on an interval of 1000 ms for as long as no startGame
    is received, and, the user staying the same, startGame clears that
    interval so that nothing more is sent.  But when the user of the
    context has been replaced in between, the cleanup of the first
    effect clears the [loop] of an older render (undefined), the first
    interval stays registered, and it still sends joinWaitRoom after the
    game is found. *)
Theorem wait_room_polling_and_stale_cleanup :
  forall (c : Z) (tok : option string),
    c <> 0 ->
    (forall n,
        let p := WaitRoom.run_events (repeat (WaitRoom.IntervalFires 0%nat) n)
                   (WaitRoom.mount c tok) in
        WaitRoom.intervals p = [(0%nat, 1000)]
        /\ WaitRoom.hasFoundGame p = false
        /\ WaitRoom.emitted p = repeat (WaitRoom.joinWaitRoom tok) n)
    /\ (forall n payload ids,
           let p := WaitRoom.run_events
                      (repeat (WaitRoom.IntervalFires 0%nat) n
                       ++ [WaitRoom.StartGameReceived payload])
                      (WaitRoom.mount c tok) in
           WaitRoom.hasFoundGame p = true
           /\ WaitRoom.intervals p = []
           /\ WaitRoom.emitted
                (WaitRoom.run_events (map WaitRoom.IntervalFires ids) p)
              = repeat (WaitRoom.joinWaitRoom tok) n)
    /\ (forall payload,
           let p := WaitRoom.run_events
                      [WaitRoom.UserChanged c; WaitRoom.StartGameReceived payload]
                      (WaitRoom.mount 0 tok) in
           WaitRoom.hasFoundGame p = true /\ WaitRoom.intervals p = [])
    /\ (forall c' payload n,
           c' <> 0 ->
           let p := WaitRoom.run_events
                      [WaitRoom.UserChanged c'; WaitRoom.StartGameReceived payload]
                      (WaitRoom.mount c tok) in
           WaitRoom.hasFoundGame p = true
           /\ WaitRoom.intervals p = [(0%nat, 1000)]
           /\ WaitRoom.emitted
                (WaitRoom.run_events (repeat (WaitRoom.IntervalFires 0%nat) n) p)
              = repeat (WaitRoom.joinWaitRoom tok) n).
Proof.
  intros c tok Hc. pose proof Hc as Hcb. apply Z.eqb_neq in Hcb.
  split; [|split; [|split]].
  - intros n. cbn zeta. rewrite mount_with_clearance by exact Hc.
    rewrite fires_emit by reflexivity. repeat split.
  - intros n payload ids. cbn zeta. rewrite mount_with_clearance by exact Hc.
    rewrite !run_events_app, fires_emit by reflexivity. cbn.
    split; [reflexivity|]. split; [reflexivity|].
    now rewrite fires_nothing.
  - intros payload. cbn zeta. rewrite mount_without_clearance.
    cbn [WaitRoom.run_events fold_left WaitRoom.step].
    unfold WaitRoom.run_cleanup, WaitRoom.effect_user.
    cbn [WaitRoom.clearance WaitRoom.cleanup WaitRoom.clearInterval
         WaitRoom.intervals WaitRoom.token WaitRoom.hasFoundGame
         WaitRoom.gameInfo WaitRoom.loop WaitRoom.next_timer
         WaitRoom.startGame_listeners WaitRoom.emitted Nat.pred].
    rewrite Hcb. cbn. split; reflexivity.
  - intros c' payload n Hc'. apply Z.eqb_neq in Hc'. cbn zeta.
    rewrite mount_with_clearance by exact Hc.
    cbn [WaitRoom.run_events fold_left WaitRoom.step].
    unfold WaitRoom.run_cleanup, WaitRoom.effect_user.
    cbn [WaitRoom.clearance WaitRoom.cleanup WaitRoom.clearInterval
         WaitRoom.intervals WaitRoom.token WaitRoom.hasFoundGame
         WaitRoom.gameInfo WaitRoom.loop WaitRoom.next_timer
         WaitRoom.startGame_listeners WaitRoom.emitted Nat.pred].
    rewrite Hc'. cbn.
    split; [reflexivity|]. split; [reflexivity|].
    rewrite fires_emit by reflexivity. reflexivity.
Qed.

(* ================================================================= *)
(** ** The statements at work on the sample stores *)

Example findOngoing_alice :
  value (GameService.findOngoing "alice" Sample.db_sample)
  = Ok [mkGame "g1" true "ongoing" None 10 [Sample.alice; Sample.bob]].
Proof. reflexivity. Qed.

Example findOngoing_carol :
  value (GameService.findOngoing "carol" Sample.db_sample) = Ok [].
Proof. reflexivity. Qed.

Example findByPlayer_alice_ranked :
  option_map (map id)
    (match value (GameService.findByPlayer "alice" true Sample.db_sample) with
     | Ok gs => Some gs | Throw _ => None end)
  = Some ["g1"; "g2"].
Proof. reflexivity. Qed.

Example findByPlayer_alice_any :
  option_map (map (fun g => (id g, isRanked g)))
    (match value (GameService.findByPlayer "alice" false Sample.db_sample) with
     | Ok gs => Some gs | Throw _ => None end)
  = Some [("g1", true); ("g2", true); ("g4", false)].
Proof. reflexivity. Qed.

Example findPlayable_carol :
  option_map (map id)
    (match value (GameService.findPlayable "carol" Sample.db_sample) with
     | Ok gs => Some gs | Throw _ => None end)
  = Some ["g2"; "g3"].
Proof. reflexivity. Qed.

Example findPlayable_stranger :
  option_map (map id)
    (match value (GameService.findPlayable "dave" Sample.db_sample) with
     | Ok gs => Some gs | Throw _ => None end)
  = Some ["g2"].
Proof. reflexivity. Qed.

Example findWaiting_casual :
  value (GameService.findWaiting false Sample.db_oldest_first)
  = Ok (Some (mkGame "g7" false "waiting" None 5 [Sample.carol])).
Proof. reflexivity. Qed.

Example findById_stored :
  value (GameService.findById (IdUuid "g2") Sample.db_sample)
  = Ok (Some (mkGame "g2" true "waiting" None 20 [Sample.alice])).
Proof. reflexivity. Qed.

Example findById_of_a_number :
  GameService.findById (IdNumber 2) Sample.db_sample
  = (Throw (mkHttpException "SequelizeDatabaseError" INTERNAL_SERVER_ERROR),
     Sample.db_sample).
Proof. reflexivity. Qed.

Example create_known_player :
  UserGameController.create Sample.service (Some "carol") 1 Sample.db_sample
  = (Throw (mkHttpException "SequelizeDatabaseError" INTERNAL_SERVER_ERROR),
     Sample.db_sample).
Proof. reflexivity. Qed.

Example create_unknown_player :
  UserGameController.create Sample.service (Some "dave") 1 Sample.db_sample
  = (Throw (mkHttpException "User Not Found" NOT_FOUND), Sample.db_sample).
Proof. reflexivity. Qed.

Example create_without_login :
  UserGameController.create Sample.service None 1 Sample.db_sample
  = (Throw (mkHttpException "Missing parameters" BAD_REQUEST), Sample.db_sample).
Proof. reflexivity. Qed.

Example game_create_unknown_status :
  GameService.create (mkEnv 40 "g9")
    (mkGameDto None (Some true) (Some "paused") None []) Sample.db_sample
  = (Throw (mkHttpException "SequelizeDatabaseError" INTERNAL_SERVER_ERROR),
     Sample.db_sample).
Proof. reflexivity. Qed.

(** Linking an unregistered user fails after the game row is stored. *)
Example game_create_unregistered_user :
  GameService.create (mkEnv 40 "g9")
    (mkGameDto None (Some true) (Some "waiting") None [mkUser "dave" 1])
    Sample.db_users_only
  = (Throw (mkHttpException "SequelizeDatabaseError" INTERNAL_SERVER_ERROR),
     mkDB [Sample.alice; Sample.bob; Sample.carol]
          [mkGameRow "g9" true "waiting" None 40] []).
Proof. reflexivity. Qed.

Lemma db_sample_slots_bounded : slots_bounded Sample.db_sample.
Proof.
  intros gid. unfold slots. cbn [user_games_tbl Sample.db_sample filter gameId].
  repeat match goal with
         | |- context [String.eqb ?a gid] =>
             destruct (String.eqb_spec a gid); [subst gid|]
         end;
    cbn; try lia; try congruence.
Qed.

Lemma db_sample_slots_linked : slots_linked Sample.db_sample.
Proof.
  intros ug Hug. cbn in Hug.
  repeat (destruct Hug as [<-|Hug]; [reflexivity|]). destruct Hug.
Qed.

Lemma db_sample_scores_in_range : scores_in_range Sample.db_sample.
Proof. unfold scores_in_range. cbn. repeat constructor; cbn; lia. Qed.

Lemma db_oldest_first_ordered : creation_ordered Sample.db_oldest_first.
Proof.
  unfold creation_ordered. cbn.
  repeat (constructor; [|repeat constructor; cbn; lia]). constructor.
Qed.


Lemma status_always_in_enum_witness :
  status_closed Sample.db_sample
  /\ status_closed
       (run Sample.service
            [ GameCreate (mkEnv 40 "g9")
                (mkGameDto None (Some true) (Some "paused") None []);
              GameUpdate (mkGameDto (Some "g2") None (Some "over") None []);
              GameUpdateLands (mkGameDto (Some "g2") None (Some "over") None []);
              GameUpdate (mkGameDto (Some "g2") None (Some "ongoing") None []);
              GameUpdateLands (mkGameDto (Some "g2") None (Some "ongoing") None []) ]
            Sample.db_sample)
  /\ update_effect (mkGameDto (Some "g2") None (Some "over") None []) Sample.db_sample
     = Sample.db_sample.
Proof.
  assert (Hc : status_closed Sample.db_sample).
  { unfold status_closed. cbn. repeat constructor; cbn; tauto. }
  destruct (status_always_in_enum Sample.service Sample.db_sample)
    as [Hrun [_ [_ Hlands]]].
  split; [exact Hc|]. split.
  - apply Hrun. exact Hc.
  - apply (Hlands _ "over"); [reflexivity|].
    cbn. intros [H|[H|[H|[H|[H|[]]]]]]; discriminate.
Defined.



Lemma findWaiting_first_candidate_witness :
  exists g,
    GameService.findWaiting true Sample.db_oldest_first
    = (Ok (Some g), Sample.db_oldest_first)
    /\ candidate true g
    /\ forall g', In g' (stored_games Sample.db_oldest_first) ->
                  candidate true g' -> createdAt g <= createdAt g'.
Proof.
  destruct (findWaiting_first_candidate Sample.db_oldest_first true)
    as [o [Hrun [_ Hsome]]].
  exists (mkGame "g1" true "waiting" None 10 [Sample.alice]).
  split; [reflexivity|].
  assert (Ho : o = Some (mkGame "g1" true "waiting" None 10 [Sample.alice])).
  { cbv in Hrun. now injection Hrun as <-. }
  destruct (Hsome _ Ho) as [Hcand [_ Hold]].
  split; [exact Hcand|]. apply Hold. exact db_oldest_first_ordered.
Defined.

Lemma wait_room_polling_and_stale_cleanup_witness :
  WaitRoom.emitted
    (WaitRoom.run_events
       [ WaitRoom.IntervalFires 0%nat; WaitRoom.IntervalFires 0%nat;
         WaitRoom.IntervalFires 0%nat ]
       (WaitRoom.run_events
          [ WaitRoom.UserChanged 1; WaitRoom.StartGameReceived "game" ]
          (WaitRoom.mount 1 (Some "jwt"))))
  = [ WaitRoom.joinWaitRoom (Some "jwt"); WaitRoom.joinWaitRoom (Some "jwt");
      WaitRoom.joinWaitRoom (Some "jwt") ].
Proof.
  assert (H1 : 1 <> 0) by lia.
  destruct (wait_room_polling_and_stale_cleanup 1 (Some "jwt") H1)
    as [_ [_ [_ Hleak]]].
  destruct (Hleak 1 "game" 3%nat H1) as [_ [_ Hsent]].
  exact Hsent.
Defined.
(* ================================================================= *)
(** ** More on the queries of [GameService] *)

Lemma findInvitation_run (db : DB) (l : string) :
  GameService.findInvitation l db
  = (Ok (filter (fun g => String.eqb (status g) "invitation"
                          && GameService.invitee_is l g) (stored_games db)), db).
Proof.
  unfold GameService.findInvitation, try_catch_500.
  rewrite findAll_run. f_equal. f_equal.
  apply findAll_filter. reflexivity.
Qed.

Lemma playable_test (l : string) (g : Game) :
  (String.eqb (status g) "waiting" || String.eqb (status g) "invitation")
  && (GameService.has_login l g
      || GameService.invitee_is l g
      || ((Z.of_nat (List.length (users g)) <? 2)
          && negb (String.eqb (status g) "invitation"))) = true
  <-> (status g = "waiting" \/ status g = "invitation")
      /\ (plays l g
          \/ invitee g = Some l
          \/ ((List.length (users g) < 2)%nat /\ status g <> "invitation")).
Proof.
  rewrite andb_true_iff, !orb_true_iff, andb_true_iff, negb_true_iff,
    !String.eqb_eq, String.eqb_neq, has_login_plays, invitee_is_eq, Z.ltb_lt.
  assert (Hlt : Z.of_nat (List.length (users g)) < 2
                <-> (List.length (users g) < 2)%nat) by lia.
  tauto.
Qed.

(** X1. [GameService.findInvitation login] returns, without touching the
    store, exactly the stored games whose status is 'invitation' and
    whose invitee is that login. *)
Theorem findInvitation_exact :
  forall (db : DB) (l : string),
  exists gs,
    GameService.findInvitation l db = (Ok gs, db)
    /\ forall g, In g gs
                 <-> In g (stored_games db)
                     /\ status g = "invitation" /\ invitee g = Some l.
Proof.
  intros db l. eexists. split; [apply findInvitation_run|].
  intros g. rewrite filter_In, andb_true_iff, String.eqb_eq, invitee_is_eq.
  tauto.
Qed.

(** X2. Every invitation [findInvitation login] lists is also offered
    to that login by [findPlayable login]. *)
Theorem invitations_are_playable :
  forall (db : DB) (l : string),
  exists invitations playable,
    GameService.findInvitation l db = (Ok invitations, db)
    /\ GameService.findPlayable l db = (Ok playable, db)
    /\ incl invitations playable.
Proof.
  intros db l. eexists _, _.
  split; [apply findInvitation_run|]. split; [apply findPlayable_run|].
  intros g Hg. apply filter_In in Hg. destruct Hg as [Hin Hg].
  apply andb_true_iff in Hg. destruct Hg as [Hst Hinv].
  apply filter_In. split; [exact Hin|].
  rewrite Hst, Hinv. rewrite !orb_true_r. reflexivity.
Qed.

(** X3. [GameService.findPlayable login] misses nothing: a stored game
    is returned exactly when its status is 'waiting' or 'invitation'
    and the login plays in it, or is its invitee, or the game has fewer
    than 2 users and is not an invitation. *)
Theorem findPlayable_exact :
  forall (db : DB) (l : string),
  exists gs,
    GameService.findPlayable l db = (Ok gs, db)
    /\ forall g, In g gs
                 <-> In g (stored_games db)
                     /\ (status g = "waiting" \/ status g = "invitation")
                     /\ (plays l g
                         \/ invitee g = Some l
                         \/ ((List.length (users g) < 2)%nat
                             /\ status g <> "invitation")).
Proof.
  intros db l. eexists. split; [apply findPlayable_run|].
  intros g. rewrite filter_In, playable_test. tauto.
Qed.

(** X4. A game [findOngoing] returns for one login is never among the
    games [findPlayable] offers to any login: an ongoing match is not
    open for joining. *)
Theorem ongoing_is_not_playable :
  forall (db : DB) (l l' : string),
  exists ongoing playable,
    GameService.findOngoing l db = (Ok ongoing, db)
    /\ GameService.findPlayable l' db = (Ok playable, db)
    /\ forall g, In g ongoing -> ~ In g playable.
Proof.
  intros db l l'. eexists _, _.
  split; [apply findOngoing_run|]. split; [apply findPlayable_run|].
  intros g Hon Hpl. apply filter_In in Hon. destruct Hon as [_ Hon].
  apply andb_true_iff in Hon. destruct Hon as [Hon _].
  apply String.eqb_eq in Hon.
  apply filter_In in Hpl. destruct Hpl as [_ Hpl].
  apply playable_test in Hpl. destruct Hpl as [[Hst|Hst] _];
    rewrite Hon in Hst; discriminate.
Qed.

(** X5. The ongoing games of a player are among the games
    [findByPlayer login false] returns, and the ranked ones among them
    are among those of [findByPlayer login true]. *)
Theorem ongoing_among_games_of_player :
  forall (db : DB) (l : string),
  exists ongoing ranked every,
    GameService.findOngoing l db = (Ok ongoing, db)
    /\ GameService.findByPlayer l true db = (Ok ranked, db)
    /\ GameService.findByPlayer l false db = (Ok every, db)
    /\ incl ongoing every
    /\ (forall g, In g ongoing -> isRanked g = true -> In g ranked)
    /\ incl ranked every.
Proof.
  intros db l. eexists _, _, _.
  split; [apply findOngoing_run|]. split; [apply findByPlayer_run|].
  split; [apply findByPlayer_run|]. split; [|split].
  - intros g Hg. apply filter_In in Hg. destruct Hg as [Hin Hg].
    apply andb_true_iff in Hg. destruct Hg as [_ Hl].
    apply filter_In. split; [exact Hin | exact Hl].
  - intros g Hg Hrk. apply filter_In in Hg. destruct Hg as [Hin Hg].
    apply andb_true_iff in Hg. destruct Hg as [_ Hl].
    apply filter_In. split; [exact Hin|]. now rewrite Hrk, Hl.
  - intros g Hg. apply filter_In in Hg. destruct Hg as [Hin Hg].
    apply andb_true_iff in Hg. destruct Hg as [_ Hl].
    apply filter_In. split; [exact Hin | exact Hl].
Qed.

(* ================================================================= *)
(** ** Writing games and reading them back *)

Section FindFacts.

Context {A : Type}.
Variable f : A -> bool.

Lemma find_snoc (l : list A) (x : A) :
  find f (l ++ [x])
  = match find f l with
    | Some y => Some y
    | None => if f x then Some x else None
    end.
Proof.
  induction l as [|a l IH]; simpl; [reflexivity|].
  destruct (f a); [reflexivity | exact IH].
Qed.

Lemma find_filter_keep (q : A -> bool) (l : list A) :
  (forall a, f a = true -> q a = true) ->
  find f (filter q l) = find f l.
Proof.
  intros Hfq. induction l as [|a l IH]; simpl; [reflexivity|].
  destruct (f a) eqn:Hfa.
  - rewrite (Hfq a Hfa). simpl. now rewrite Hfa.
  - destruct (q a); simpl; [rewrite Hfa|]; exact IH.
Qed.

Lemma filter_filter_keep (q : A -> bool) (l : list A) :
  (forall a, f a = true -> q a = true) ->
  filter f (filter q l) = filter f l.
Proof.
  intros Hfq. induction l as [|a l IH]; simpl; [reflexivity|].
  destruct (f a) eqn:Hfa.
  - rewrite (Hfq a Hfa). simpl. now rewrite Hfa, IH.
  - destruct (q a); simpl; [rewrite Hfa|]; exact IH.
Qed.

Lemma filter_all (l : list A) :
  (forall a, In a l -> f a = true) -> filter f l = l.
Proof.
  intros Hall. induction l as [|a l IH]; simpl; [reflexivity|].
  rewrite (Hall a (or_introl eq_refl)). f_equal. apply IH.
  intros b Hb. apply Hall. now right.
Qed.

Lemma filter_none (l : list A) :
  (forall a, In a l -> f a = false) -> filter f l = [].
Proof.
  intros Hall. induction l as [|a l IH]; simpl; [reflexivity|].
  rewrite (Hall a (or_introl eq_refl)). apply IH.
  intros b Hb. apply Hall. now right.
Qed.

Lemma find_map_same (h : A -> A) (l : list A) :
  (forall a, f (h a) = f a) ->
  find f (map h l) = option_map h (find f l).
Proof.
  intros Hfh. induction l as [|a l IH]; simpl; [reflexivity|].
  rewrite Hfh. destruct (f a); [reflexivity | exact IH].
Qed.

End FindFacts.

Lemma has_id_false (db : DB) (i : string) :
  has_id i db = false ->
  forall r, In r (games_tbl db) -> String.eqb (row_id r) i = false.
Proof.
  intros Hfree r Hr. destruct (String.eqb (row_id r) i) eqn:Hid; [|reflexivity].
  assert (Hhas : has_id i db = true) by (apply existsb_exists; now exists r).
  rewrite Hhas in Hfree. discriminate.
Qed.

Lemma users_of_ext (db1 db2 : DB) (j : string) :
  users_tbl db1 = users_tbl db2 ->
  slots j db1 = slots j db2 ->
  users_of db1 j = users_of db2 j.
Proof.
  intros Hu Hs. unfold users_of. fold (slots j db1). fold (slots j db2).
  now rewrite Hu, Hs.
Qed.

Lemma unique_login_filter (us : list User) (u : User) :
  NoDup (map login us) -> In u us ->
  filter (fun u' => String.eqb (login u') (login u)) us = [u].
Proof.
  induction us as [|a us IH]; simpl; intros Hnd Hin; [contradiction|].
  apply NoDup_cons_iff in Hnd. destruct Hnd as [Hnotin Hnd].
  destruct Hin as [->|Hin].
  - rewrite String.eqb_refl. f_equal. apply filter_none.
    intros b Hb. apply String.eqb_neq. intros Heq.
    apply Hnotin. rewrite <- Heq. now apply in_map.
  - destruct (String.eqb_spec (login a) (login u)) as [Heq|_].
    + exfalso. apply Hnotin. rewrite Heq. now apply in_map.
    + now apply IH.
Qed.

Lemma users_of_created (db : DB) (gs : list GameRow) (i : string) (us : list User) :
  slots_linked db -> has_id i db = false ->
  NoDup (map login (users_tbl db)) -> incl us (users_tbl db) ->
  users_of (mkDB (users_tbl db) gs
              (user_games_tbl db ++ map (fun u => mkUserGame (login u) i 0) us)) i
  = us.
Proof.
  intros Hlinked Hfree Hnd Hincl. unfold users_of.
  match goal with
  | |- flat_map _ (filter ?p ?l) = _ =>
      change (filter p l)
        with (slots i (mkDB (users_tbl db) gs
                (user_games_tbl db ++ map (fun u => mkUserGame (login u) i 0) us)))
  end.
  rewrite created_slots, String.eqb_refl.
  assert (Hnone : slots i db = []).
  { apply length_zero_iff_nil. now apply free_key_has_no_slot. }
  rewrite Hnone. cbn [app users_tbl].
  induction us as [|u us IH]; [reflexivity|].
  cbn [map flat_map userLogin].
  rewrite (unique_login_filter _ u Hnd) by (apply Hincl; now left).
  cbn [app]. f_equal. apply IH. intros u' Hu'. apply Hincl. now right.
Qed.

(** X6. A game [GameService.create] stores can be read back: the key is
    the one of the dto or the fresh default, [findById] on it returns
    the attributes [create] reported, and no other key reads
    differently.  When every listed user is registered (logins being
    unique) [findById] returns the very game [create] returned. *)
Theorem game_create_then_findById :
  forall (db : DB) (env : Env) (gameDto : GameDto) (g : Game) (db' : DB),
    GameService.create env gameDto db = (Ok g, db') ->
    id g = match dto_id gameDto with Some i => i | None => fresh_id env end
    /\ dto_status gameDto = Some (status g)
    /\ users g = dto_users gameDto
    /\ (exists g',
           GameService.findById (IdUuid (id g)) db' = (Ok (Some g'), db')
           /\ id g' = id g /\ isRanked g' = isRanked g /\ status g' = status g
           /\ invitee g' = invitee g /\ createdAt g' = createdAt g)
    /\ (slots_linked db -> NoDup (map login (users_tbl db)) ->
        incl (dto_users gameDto) (users_tbl db) ->
        GameService.findById (IdUuid (id g)) db' = (Ok (Some g), db'))
    /\ (forall j, j <> id g ->
          value (GameService.findById (IdUuid j) db') = value (GameService.findById (IdUuid j) db)).
Proof.
  intros db env dto g db' Hrun.
  destruct (game_create_ok db env dto g db' Hrun)
    as [i [rk [s [Hi [_ [Hs [_ [Hfree [-> ->]]]]]]]]].
  cbn [id status users isRanked invitee createdAt].
  assert (Hfind : find (fun r => String.eqb (row_id r) i)
                    (games_tbl db ++ [mkGameRow i rk s (dto_invitee dto) (now env)])
                  = Some (mkGameRow i rk s (dto_invitee dto) (now env))).
  { rewrite find_snoc.
    replace (find (fun r => String.eqb (row_id r) i) (games_tbl db)) with (@None GameRow).
    - cbn [row_id]. now rewrite String.eqb_refl.
    - symmetry. apply find_none_iff. now apply has_id_false. }
  split; [exact Hi|]. split; [exact Hs|]. split; [reflexivity|].
  split; [|split].
  - eexists. rewrite findById_run. cbn [games_tbl]. rewrite Hfind.
    cbn [option_map]. split; [reflexivity|]. repeat split.
  - intros Hlinked Hnd Hincl. rewrite findById_run. cbn [games_tbl].
    rewrite Hfind. cbn [option_map]. unfold include_all.
    cbn [row_id row_isRanked row_status row_invitee row_createdAt].
    now rewrite users_of_created.
  - intros j Hj. rewrite !findById_run. unfold value. cbn [fst games_tbl].
    rewrite find_snoc. cbn [row_id].
    replace (String.eqb i j) with false by (symmetry; apply String.eqb_neq; congruence).
    destruct (find (fun r => String.eqb (row_id r) j) (games_tbl db)) as [r0|] eqn:Hr0;
      [|reflexivity].
    cbn [option_map]. do 2 f_equal. unfold include_all. f_equal.
    apply find_some in Hr0. destruct Hr0 as [_ Hr0]. apply String.eqb_eq in Hr0.
    apply users_of_ext; [reflexivity|].
    rewrite created_slots.
    replace (String.eqb i (row_id r0)) with false
      by (symmetry; apply String.eqb_neq; congruence).
    apply app_nil_r.
Qed.

Lemma with_games_same (db : DB) : with_games (games_tbl db) db = db.
Proof. destruct db; reflexivity. Qed.

Lemma map_unchanged {A : Type} (h : A -> A) (l : list A) :
  (forall a, In a l -> h a = a) -> map h l = l.
Proof.
  intros Hh. induction l as [|a l IH]; simpl; [reflexivity|].
  rewrite (Hh a (or_introl eq_refl)). f_equal. apply IH.
  intros b Hb. apply Hh. now right.
Qed.

(** X7. [GameService.delete id] reports how many games carried the key
    and removes them with their slots: afterwards [findById id] finds
    nothing, the game has no slot left, and every other key reads as
    before.  Deleting a key that is not stored reports 0 and leaves the
    games as they were. *)
Theorem game_delete_then_findById :
  forall (db : DB) (i : string),
  exists n db',
    GameService.delete (IdUuid i) db = (Ok n, db')
    /\ n = Z.of_nat (List.length (filter (fun r => String.eqb (row_id r) i) (games_tbl db)))
    /\ GameService.findById (IdUuid i) db' = (Ok None, db')
    /\ slots i db' = []
    /\ users_tbl db' = users_tbl db
    /\ (forall j, j <> i ->
          value (GameService.findById (IdUuid j) db') = value (GameService.findById (IdUuid j) db)
          /\ slots j db' = slots j db)
    /\ (has_id i db = false -> n = 0 /\ games_tbl db' = games_tbl db).
Proof.
  intros db i. eexists _, _. split; [reflexivity|]. split; [reflexivity|].
  assert (Hslots : forall j, j <> i ->
            slots j (mkDB (users_tbl db)
                       (filter (fun r => negb (String.eqb (row_id r) i)) (games_tbl db))
                       (filter (fun ug => negb (String.eqb (gameId ug) i)) (user_games_tbl db)))
            = slots j db).
  { intros j Hj. unfold slots. cbn [user_games_tbl]. apply filter_filter_keep.
    intros ug Hug. apply String.eqb_eq in Hug. apply negb_true_iff, String.eqb_neq.
    congruence. }
  split; [|split; [|split; [reflexivity|split]]].
  - rewrite findById_run. cbn [games_tbl].
    replace (find _ (filter _ (games_tbl db))) with (@None GameRow); [reflexivity|].
    symmetry. apply find_none_iff. intros r Hr. apply filter_In in Hr.
    destruct Hr as [_ Hr]. now apply negb_true_iff in Hr.
  - unfold slots. cbn [user_games_tbl]. apply filter_none.
    intros ug Hug. apply filter_In in Hug. destruct Hug as [_ Hug].
    now apply negb_true_iff in Hug.
  - intros j Hj. split; [|now apply Hslots].
    rewrite !findById_run. unfold value. cbn [fst games_tbl].
    rewrite find_filter_keep.
    + destruct (find (fun r => String.eqb (row_id r) j) (games_tbl db)) as [r0|] eqn:Hr0;
        [|reflexivity].
      cbn [option_map]. do 2 f_equal. unfold include_all. f_equal.
      apply find_some in Hr0. destruct Hr0 as [_ Hr0]. apply String.eqb_eq in Hr0.
      apply users_of_ext; [reflexivity|]. apply Hslots. congruence.
    + intros r Hr. apply String.eqb_eq in Hr. apply negb_true_iff, String.eqb_neq.
      congruence.
  - intros Hfree. pose proof (has_id_false db i Hfree) as Hnone. split.
    + rewrite (filter_none _ (games_tbl db)) by exact Hnone. reflexivity.
    + cbn [games_tbl]. apply filter_all. intros r Hr.
      now rewrite (Hnone r Hr).
Qed.

Lemma find_over_app {A : Type} (f : A -> bool) (l1 l2 : list A) :
  find f (l1 ++ l2)
  = match find f l1 with
    | Some y => Some y
    | None => find f l2
    end.
Proof.
  induction l1 as [|a l1 IH]; simpl; [reflexivity|].
  destruct (f a); [reflexivity | exact IH].
Qed.

Lemma update_effect_lands (db : DB) (dto : GameDto) (i : string) :
  dto_id dto = Some i ->
  (forall s, dto_status dto = Some s -> In s status_enum) ->
  update_effect dto db
  = with_games
      (filter (fun r => negb (String.eqb (row_id r) i)) (games_tbl db)
       ++ map (apply_dto dto)
            (filter (fun r => String.eqb (row_id r) i) (games_tbl db))) db.
Proof.
  intros Hid Hstatus. unfold update_effect. rewrite Hid.
  destruct (dto_status dto) as [s|]; [|reflexivity].
  replace (in_status_enum s) with true; [reflexivity|].
  symmetry. apply in_status_enum_In. now apply Hstatus.
Qed.

(** X8. [GameService.update] never reports a count and does not wait
    for the statement: it resolves to [undefined] at once, the store
    still as it was.  Once the statement has landed, for a dto with a
    key and an admissible status, [findById] on that key returns the
    former game with the attributes of the dto written over it (key,
    creation time and users kept); a key that is not stored changes
    nothing; every other key reads as before and no slot is touched. *)
Theorem game_update_then_findById :
  forall (db : DB) (gameDto : GameDto) (i : string),
    dto_id gameDto = Some i ->
    (forall s, dto_status gameDto = Some s -> In s status_enum) ->
    GameService.update gameDto db = (Ok None, db)
    /\ (forall g0,
           GameService.findById (IdUuid i) db = (Ok (Some g0), db) ->
           GameService.findById (IdUuid i) (update_effect gameDto db)
           = (Ok (Some (overwrite gameDto g0)), update_effect gameDto db))
    /\ (GameService.findById (IdUuid i) db = (Ok None, db) ->
        update_effect gameDto db = db)
    /\ (forall j, j <> i ->
          value (GameService.findById (IdUuid j) (update_effect gameDto db))
          = value (GameService.findById (IdUuid j) db))
    /\ user_games_tbl (update_effect gameDto db) = user_games_tbl db
    /\ users_tbl (update_effect gameDto db) = users_tbl db.
Proof.
  intros db dto i Hid Hstatus.
  split; [reflexivity|].
  rewrite (update_effect_lands db dto i Hid Hstatus).
  split; [|split; [|split; [|split; reflexivity]]].
  - intros g0 Hg0. rewrite findById_run in Hg0. rewrite findById_run.
    cbn [games_tbl with_games]. rewrite find_over_app.
    replace (find (fun r => String.eqb (row_id r) i)
               (filter (fun r => negb (String.eqb (row_id r) i)) (games_tbl db)))
      with (@None GameRow).
    2:{ symmetry. apply find_none_iff. intros r Hr. apply filter_In in Hr.
        destruct Hr as [_ Hr]. now apply negb_true_iff in Hr. }
    destruct (find (fun r => String.eqb (row_id r) i) (games_tbl db)) as [r0|] eqn:Hr0;
      [|discriminate].
    cbn [option_map] in Hg0. injection Hg0 as <-.
    rewrite (find_map_same (fun r => String.eqb (row_id r) i))
      by (intros r; reflexivity).
    rewrite (find_filter_keep (fun r => String.eqb (row_id r) i))
      by (intros r Hr; exact Hr).
    rewrite Hr0. reflexivity.
  - intros Hnone. rewrite findById_run in Hnone.
    destruct (find (fun r => String.eqb (row_id r) i) (games_tbl db)) as [r0|] eqn:Hr0;
      [discriminate|].
    rewrite (filter_none (fun r => String.eqb (row_id r) i))
      by (intros r Hr; exact (find_none _ _ Hr0 r Hr)).
    rewrite (filter_all (fun r => negb (String.eqb (row_id r) i)))
      by (intros r Hr; now rewrite (find_none _ _ Hr0 r Hr)).
    cbn [map]. rewrite app_nil_r. apply with_games_same.
  - intros j Hj. rewrite !findById_run. unfold value. cbn [fst games_tbl with_games].
    rewrite find_over_app.
    rewrite (find_filter_keep (fun r => String.eqb (row_id r) j)).
    2:{ intros r Hr. apply String.eqb_eq in Hr. apply negb_true_iff, String.eqb_neq.
        congruence. }
    replace (find (fun r => String.eqb (row_id r) j)
               (map (apply_dto dto)
                  (filter (fun r => String.eqb (row_id r) i) (games_tbl db))))
      with (@None GameRow).
    2:{ symmetry. apply find_none_iff. intros r Hr. apply in_map_iff in Hr.
        destruct Hr as [r0 [<- Hr0]]. apply filter_In in Hr0.
        destruct Hr0 as [_ Hr0]. apply String.eqb_eq in Hr0.
        cbn [apply_dto row_id]. apply String.eqb_neq. congruence. }
    destruct (find (fun r => String.eqb (row_id r) j) (games_tbl db)) as [r0|];
      reflexivity.
Qed.

(* ================================================================= *)
(** ** More on the user-game controller *)

Lemma NoDup_snoc {A : Type} (l : list A) (x : A) :
  NoDup l -> ~ In x l -> NoDup (l ++ [x]).
Proof.
  intros Hnd Hx. induction Hnd as [|a l Ha Hnd IH]; cbn.
  - constructor; [intros []|constructor].
  - constructor.
    + intros Hin. apply in_app_or in Hin. destruct Hin as [Hin|[<-|[]]].
      * contradiction.
      * apply Hx. now left.
    + apply IH. intros Hin. apply Hx. now right.
Qed.

Lemma known_login (db : DB) (l : string) :
  existsb (fun u => String.eqb (login u) l) (users_tbl db) = true
  <-> exists u, In u (users_tbl db) /\ login u = l.
Proof.
  rewrite existsb_exists. split; intros [u [Hu Hl]]; exists u; split; auto.
  - now apply String.eqb_eq.
  - now apply String.eqb_eq.
Qed.

(** X9. [UserGameController.create] never answers Conflict and never
    stores a slot, whatever the user-game service: without a login the
    answer is Bad Request, for a login that is not registered it is Not
    Found, and for a registered login the lookup of the game, made with
    the number the pipe parsed against a UUID key, fails and the answer
    is Internal Server Error. *)
Theorem user_game_create_never_conflicts :
  forall (svc : UserGameService.t) (db : DB) (userLogin_ : option string) (gameId_ : Z),
  exists e,
    UserGameController.create svc userLogin_ gameId_ db = (Throw e, db)
    /\ httpStatus e <> CONFLICT
    /\ (httpStatus e = BAD_REQUEST
        <-> userLogin_ = None \/ userLogin_ = Some EmptyString)
    /\ (httpStatus e = NOT_FOUND
        <-> exists l, userLogin_ = Some l /\ l <> EmptyString
                      /\ forall u, In u (users_tbl db) -> login u <> l)
    /\ (httpStatus e = INTERNAL_SERVER_ERROR
        <-> exists l u, userLogin_ = Some l /\ l <> EmptyString
                        /\ In u (users_tbl db) /\ login u = l).
Proof.
  intros svc db ul n. eexists. split; [apply create_answer|].
  destruct ul as [[|c s]|]; cbn [httpStatus].
  - split; [discriminate|]. split; [tauto|].
    split; (split; [discriminate|]).
    + intros [l [Hl [Hne _]]]. injection Hl as <-. now destruct Hne.
    + intros [l [u [Hl [Hne _]]]]. injection Hl as <-. now destruct Hne.
  - destruct (existsb (fun u => String.eqb (login u) (String c s)) (users_tbl db))
      eqn:Hknown; cbn [httpStatus].
    + apply known_login in Hknown. destruct Hknown as [u [Hu Hl]].
      split; [discriminate|]. split; [|split].
      * split; [discriminate | intros [H|H]; discriminate].
      * split; [discriminate|]. intros [l [Hul [_ Hnone]]]. injection Hul as <-.
        now destruct (Hnone u Hu).
      * split; [|reflexivity]. intros _. exists (String c s), u.
        repeat split; [discriminate | exact Hu | exact Hl].
    + split; [discriminate|]. split; [|split].
      * split; [discriminate | intros [H|H]; discriminate].
      * split; [|reflexivity]. intros _. exists (String c s).
        repeat split; [discriminate|]. intros u Hu Hl.
        assert (Hk : existsb (fun u => String.eqb (login u) (String c s)) (users_tbl db)
                     = true) by (apply known_login; now exists u).
        rewrite Hk in Hknown. discriminate.
      * split; [discriminate|]. intros [l [u [Hul [_ [Hu Hl]]]]]. injection Hul as <-.
        assert (Hk : existsb (fun u => String.eqb (login u) (String c s)) (users_tbl db)
                     = true) by (apply known_login; now exists u).
        rewrite Hk in Hknown. discriminate.
  - split; [discriminate|]. split; [tauto|].
    split; (split; [discriminate|]).
    + intros [l [Hl _]]. discriminate.
    + intros [l [u [Hl _]]]. discriminate.
Qed.


(** X14. The two reads of the user-game controller that take a game
    number never return data, whatever the user-game service:
    [getByUserAndGame] answers Not Found for a login that is not
    registered and Internal Server Error otherwise, [findByGame] always
    answers Internal Server Error; the lookup of the game with a number
    fails before the service is asked.  Neither changes the store. *)
Theorem user_game_reads_fail_on_game_lookup :
  forall (svc : UserGameService.t) (db : DB) (id_ : Z) (login_ : string),
    (exists e,
        UserGameController.getByUserAndGame svc id_ login_ db = (Throw e, db)
        /\ (httpStatus e = NOT_FOUND
            <-> forall u, In u (users_tbl db) -> login u <> login_)
        /\ (httpStatus e = INTERNAL_SERVER_ERROR
            <-> exists u, In u (users_tbl db) /\ login u = login_))
    /\ UserGameController.findByGame svc id_ db
       = (Throw (mkHttpException "SequelizeDatabaseError" INTERNAL_SERVER_ERROR), db).
Proof.
  intros svc db n l. split; [|apply findByGame_answer].
  eexists. split; [apply getByUserAndGame_answer|].
  destruct (existsb (fun u => String.eqb (login u) l) (users_tbl db)) eqn:Hknown;
    cbn [httpStatus].
  - apply known_login in Hknown. destruct Hknown as [u [Hu Hl]]. split.
    + split; [discriminate|]. intros Hnone. now destruct (Hnone u Hu).
    + split; [|reflexivity]. intros _. now exists u.
  - assert (Hnone : forall u, In u (users_tbl db) -> login u <> l).
    { intros u Hu Hl.
      assert (Hk : existsb (fun u => String.eqb (login u) l) (users_tbl db) = true)
        by (apply known_login; now exists u).
      rewrite Hk in Hknown. discriminate. }
    split.
    + split; [intros _; exact Hnone | reflexivity].
    + split; [discriminate|]. intros [u [Hu Hl]]. now destruct (Hnone u Hu).
Qed.

(* ================================================================= *)
(** ** The client: history and statistics *)

Section ClientFolds.

Import Client.

Lemma splitGames_from (data ranked normal : list Entry) :
  fold_left
    (fun (acc : list Entry * list Entry) (e : Entry) =>
       let (ranked, normal) := acc in
       if isRanked (game e) && not_waiting e then (ranked ++ [e], normal)
       else if negb (isRanked (game e)) && not_waiting e then (ranked, normal ++ [e])
       else (ranked, normal))
    data (ranked, normal)
  = (ranked ++ filter (fun e => isRanked (game e) && not_waiting e) data,
     normal ++ filter (fun e => negb (isRanked (game e)) && not_waiting e) data).
Proof.
  revert ranked normal. induction data as [|e data IH]; intros ranked normal.
  - cbn. now rewrite !app_nil_r.
  - cbn [fold_left filter].
    destruct (isRanked (game e)), (not_waiting e); cbn [andb negb];
      rewrite IH; rewrite <- ?app_assoc; reflexivity.
Qed.

Lemma countResults_from (games : list Entry) (acc : Results) :
  fold_left
    (fun (acc : Results) (e : Entry) =>
       if Z.eqb (score e) 11
       then mkResults (wins acc + 1) (losses acc)
       else mkResults (wins acc) (losses acc + 1))
    games acc
  = mkResults
      (wins acc + Z.of_nat (List.length (filter (fun e => Z.eqb (score e) 11) games)))
      (losses acc
       + Z.of_nat (List.length (filter (fun e => negb (Z.eqb (score e) 11)) games))).
Proof.
  revert acc. induction games as [|e games IH]; intros acc.
  - cbn. destruct acc as [w l]. cbn. f_equal; lia.
  - cbn [fold_left filter]. rewrite IH.
    destruct (Z.eqb (score e) 11); cbn [negb wins losses List.length];
      f_equal; lia.
Qed.

Lemma filter_split_length {A : Type} (p : A -> bool) (l : list A) :
  (List.length (filter p l) + List.length (filter (fun a => negb (p a)) l)
   = List.length l)%nat.
Proof.
  induction l as [|a l IH]; simpl; [reflexivity|].
  destruct (p a); simpl; lia.
Qed.

Lemma splitGames_run (data : list Entry) :
  splitGames data
  = (filter (fun e => isRanked (game e) && not_waiting e) data,
     filter (fun e => negb (isRanked (game e)) && not_waiting e) data).
Proof. unfold splitGames. now rewrite splitGames_from. Qed.

Lemma splitGames_length (data : list Entry) :
  (List.length (fst (splitGames data)) + List.length (snd (splitGames data))
   = List.length (filter not_waiting data))%nat.
Proof.
  rewrite splitGames_run. cbn [fst snd].
  induction data as [|e data IH]; [reflexivity|].
  cbn [filter].
  destruct (isRanked (game e)), (not_waiting e);
    cbn [andb negb List.length]; lia.
Qed.

End ClientFolds.

(** X16. The match history splits the response in two lists that keep
    the order of the response: the ranked games that are not waiting
    and the casual games that are not waiting.  A waiting game is in
    neither list, every other game is in exactly one. *)
Theorem splitGames_partition :
  forall (data : list Client.Entry),
    Client.splitGames data
    = (filter (fun e => Client.isRanked (Client.game e) && Client.not_waiting e) data,
       filter (fun e => negb (Client.isRanked (Client.game e)) && Client.not_waiting e) data)
    /\ (forall e, In e (fst (Client.splitGames data)) -> In e (snd (Client.splitGames data))
                  -> False)
    /\ (forall e, In e data ->
          (Client.status (Client.game e) <> "waiting"
           <-> In e (fst (Client.splitGames data)) \/ In e (snd (Client.splitGames data))))
    /\ (List.length (fst (Client.splitGames data))
        + List.length (snd (Client.splitGames data))
        = List.length (filter Client.not_waiting data))%nat.
Proof.
  intros data.
  assert (Heq : Client.splitGames data
    = (filter (fun e => Client.isRanked (Client.game e) && Client.not_waiting e) data,
       filter (fun e => negb (Client.isRanked (Client.game e)) && Client.not_waiting e)
              data)).
  { apply splitGames_run. }
  split; [exact Heq|]. split; [|split]; [| |apply splitGames_length];
    rewrite Heq; cbn [fst snd].
  - intros e H1 H2. apply filter_In in H1. apply filter_In in H2.
    destruct H1 as [_ H1]. destruct H2 as [_ H2].
    destruct (Client.isRanked (Client.game e)); discriminate.
  - intros e He. rewrite !filter_In. unfold Client.not_waiting.
    destruct (String.eqb_spec (Client.status (Client.game e)) "waiting") as [Hw|Hw];
      destruct (Client.isRanked (Client.game e)); cbn [andb negb];
      split; intuition (try discriminate; try congruence).
Qed.

(** X17. The statistics count every listed game once: the wins are the
    games whose score is 11, every other game counts as a loss, and
    'Games Played' is the number of games of the response that are not
    waiting. *)
Theorem countResults_tally :
  forall (data games : list Client.Entry),
    Client.wins (Client.countResults games)
    = Z.of_nat (List.length (filter (fun e => Z.eqb (Client.score e) 11) games))
    /\ Client.wins (Client.countResults games) + Client.losses (Client.countResults games)
       = Z.of_nat (List.length games)
    /\ (let total :=
          Client.gameResults
            (Client.countResults (fst (Client.splitGames data)))
            (Client.countResults (snd (Client.splitGames data))) in
        Client.wins total + Client.losses total
        = Z.of_nat (List.length (filter Client.not_waiting data))).
Proof.
  intros data games.
  assert (Hsum : forall l,
             Client.wins (Client.countResults l) + Client.losses (Client.countResults l)
             = Z.of_nat (List.length l)).
  { intros l. unfold Client.countResults. rewrite countResults_from.
    cbn [Client.wins Client.losses].
    pose proof (filter_split_length (fun e => Z.eqb (Client.score e) 11) l). lia. }
  split; [|split].
  - unfold Client.countResults. rewrite countResults_from. reflexivity.
  - apply Hsum.
  - cbn zeta. unfold Client.gameResults. cbn [Client.wins Client.losses].
    pose proof (splitGames_length data) as Hlen.
    pose proof (Hsum (fst (Client.splitGames data))).
    pose proof (Hsum (snd (Client.splitGames data))). lia.
Qed.

(** X18. When the game is over and has its two players, exactly one of
    them is told 'You won!' and the other 'You lost!': the player at
    index 0 wins when its score is strictly greater, otherwise, ties
    included, the player at index 1 does; whoever looks at the game
    from another index is told 'You lost!'.  The calls made on the
    canvas are the same for everyone but for that one text. *)
Theorem displayTurnText_one_winner :
  forall (g : Client.TurnGame) (p0 p1 : Z) (rest : list Z),
    Client.isOver g = true ->
    Client.players g = p0 :: p1 :: rest ->
    (In Client.won (fst (Client.displayTurnText (Client.seen_by 0 g))) <-> p0 > p1)
    /\ (In Client.won (fst (Client.displayTurnText (Client.seen_by 1 g))) <-> p0 <= p1)
    /\ (forall i,
           snd (Client.displayTurnText (Client.seen_by i g)) = true
           /\ (In Client.won (fst (Client.displayTurnText (Client.seen_by i g)))
               <-> ~ In Client.lost (fst (Client.displayTurnText (Client.seen_by i g)))))
    /\ (In Client.lost (fst (Client.displayTurnText (Client.seen_by 0 g))) <-> p0 <= p1)
    /\ (In Client.lost (fst (Client.displayTurnText (Client.seen_by 1 g))) <-> p0 > p1)
    /\ (forall i,
           (In Client.won (fst (Client.displayTurnText (Client.seen_by i g)))
            <-> i = if p0 >? p1 then 0 else 1)
           /\ (In Client.lost (fst (Client.displayTurnText (Client.seen_by i g)))
               <-> i <> if p0 >? p1 then 0 else 1)
           /\ fst (Client.displayTurnText (Client.seen_by i g))
              = [Client.push; Client.textSize (Client.Scaled 32);
                 Client.textAlign_CENTER_CENTER; Client.fill 255;
                 Client.text "Game Over" (Client.Lit 0) (Client.Lit 0);
                 if Z.eqb i (if p0 >? p1 then 0 else 1)
                 then Client.text "You won!" (Client.Lit 0) (Client.Scaled 50)
                 else Client.text "You lost!" (Client.Lit 0) (Client.Scaled 50);
                 Client.pop]).
Proof.
  intros g p0 p1 rest Hover Hplayers.
  assert (Hrun : forall i,
    Client.displayTurnText (Client.seen_by i g)
    = ([Client.push; Client.textSize (Client.Scaled 32);
        Client.textAlign_CENTER_CENTER; Client.fill 255;
        Client.text "Game Over" (Client.Lit 0) (Client.Lit 0);
        if Z.eqb i (if p0 >? p1 then 0 else 1) then Client.won else Client.lost;
        Client.pop], true)).
  { intros i. unfold Client.displayTurnText, Client.seen_by.
    cbn [Client.isOver Client.players Client.myIndex].
    rewrite Hover, Hplayers. rewrite (Z.eqb_sym i). reflexivity. }
  assert (Hwon : forall i,
    In Client.won (fst (Client.displayTurnText (Client.seen_by i g)))
    <-> i = if p0 >? p1 then 0 else 1).
  { intros i. rewrite Hrun. cbn [fst]. unfold Client.won, Client.lost.
    destruct (Z.eqb_spec i (if p0 >? p1 then 0 else 1)) as [Heq|Hne]; cbn [In].
    - split; [intros _; exact Heq | intros _; do 5 right; left; reflexivity].
    - split; [|intros Heq; now destruct Hne].
      intros H; repeat (destruct H as [H|H]; [discriminate|]); destruct H. }
  assert (Hlost : forall i,
    In Client.lost (fst (Client.displayTurnText (Client.seen_by i g)))
    <-> i <> if p0 >? p1 then 0 else 1).
  { intros i. rewrite Hrun. cbn [fst]. unfold Client.won, Client.lost.
    destruct (Z.eqb_spec i (if p0 >? p1 then 0 else 1)) as [Heq|Hne]; cbn [In].
    - split; [|intros Hne; now destruct Hne].
      intros H; repeat (destruct H as [H|H]; [discriminate|]); destruct H.
    - split; [intros _; exact Hne | intros _; do 5 right; left; reflexivity]. }
  repeat split.
  - intros H. apply Hwon in H. destruct (Z.gtb_spec p0 p1); [lia | discriminate].
  - intros H. apply Hwon. destruct (Z.gtb_spec p0 p1); [reflexivity | lia].
  - intros H. apply Hwon in H. destruct (Z.gtb_spec p0 p1); [discriminate | lia].
  - intros H. apply Hwon. destruct (Z.gtb_spec p0 p1); [lia | reflexivity].
  - now rewrite Hrun.
  - intros H. apply Hwon in H. intros H'. apply Hlost in H'. contradiction.
  - intros H. apply Hwon.
    destruct (Z.eq_dec i (if p0 >? p1 then 0 else 1)) as [Heq|Hne]; [exact Heq|].
    exfalso. apply H. now apply Hlost.
  - intros H. apply Hlost in H. destruct (Z.gtb_spec p0 p1); [now destruct H | lia].
  - intros H. apply Hlost. destruct (Z.gtb_spec p0 p1); [lia | discriminate].
  - intros H. apply Hlost in H. destruct (Z.gtb_spec p0 p1); [lia | now destruct H].
  - intros H. apply Hlost. destruct (Z.gtb_spec p0 p1); [discriminate | lia].
  - apply Hwon.
  - apply Hwon.
  - apply Hlost.
  - apply Hlost.
  - now rewrite Hrun.
Qed.

(* ================================================================= *)
(** ** The further statements at work *)

Lemma db_lobby_slots_linked : slots_linked db_lobby.
Proof.
  intros ug Hug. cbn in Hug.
  repeat (destruct Hug as [<-|Hug]; [reflexivity|]). destruct Hug.
Qed.

Lemma db_lobby_logins_unique : NoDup (map login (users_tbl db_lobby)).
Proof.
  cbn. repeat constructor; cbn; intuition discriminate.
Qed.

Lemma db_lobby_slot_keys_unique : NoDup (slot_keys db_lobby).
Proof.
  cbn. repeat constructor; cbn; intuition discriminate.
Qed.

Lemma game_create_then_findById_witness :
  exists g db',
    GameService.create (mkEnv 40 "g9")
      (mkGameDto None (Some false) (Some "waiting") None [Sample.carol]) db_lobby
    = (Ok g, db')
    /\ id g = "g9"
    /\ GameService.findById (IdUuid "g9") db' = (Ok (Some g), db').
Proof.
  eexists _, _. split; [reflexivity|].
  destruct (game_create_then_findById db_lobby (mkEnv 40 "g9")
              (mkGameDto None (Some false) (Some "waiting") None [Sample.carol])
              _ _ eq_refl) as [Hid [_ [_ [_ [Hback _]]]]].
  split; [exact Hid|]. apply Hback.
  - exact db_lobby_slots_linked.
  - exact db_lobby_logins_unique.
  - intros u [<-|[]]. cbn. tauto.
Defined.

Lemma game_update_then_findById_witness :
  GameService.update (mkGameDto (Some "g1") None (Some "ongoing") None []) db_lobby
  = (Ok None, db_lobby)
  /\ GameService.findById (IdUuid "g1")
       (update_effect (mkGameDto (Some "g1") None (Some "ongoing") None []) db_lobby)
     = (Ok (Some (mkGame "g1" true "ongoing" None 10 [Sample.alice])),
        update_effect (mkGameDto (Some "g1") None (Some "ongoing") None []) db_lobby).
Proof.
  assert (Hstatus : forall s,
             dto_status (mkGameDto (Some "g1") None (Some "ongoing") None []) = Some s ->
             In s status_enum).
  { intros s H. injection H as <-. cbn. tauto. }
  destruct (game_update_then_findById db_lobby
              (mkGameDto (Some "g1") None (Some "ongoing") None []) "g1" eq_refl Hstatus)
    as [Hsent [Hback _]].
  split; [exact Hsent|].
  exact (Hback (mkGame "g1" true "waiting" None 10 [Sample.alice]) eq_refl).
Defined.


Lemma displayTurnText_one_winner_witness :
  In Client.won
     (fst (Client.displayTurnText
             (Client.seen_by 1 (Client.mkTurnGame true false [7; 7] 0 0))))
  /\ ~ In Client.won
         (fst (Client.displayTurnText
                 (Client.seen_by 0 (Client.mkTurnGame true false [7; 7] 0 0))))
  /\ In Client.lost
        (fst (Client.displayTurnText
                (Client.seen_by 2 (Client.mkTurnGame true false [7; 7] 0 0)))).
Proof.
  destruct (displayTurnText_one_winner (Client.mkTurnGame true false [7; 7] 0 0)
              7 7 [] eq_refl eq_refl) as [H0 [H1 [_ [_ [_ Hany]]]]].
  split; [|split].
  - apply H1. lia.
  - intros H. apply H0 in H. lia.
  - apply (Hany 2). cbn. lia.
Defined.

(* ================================================================= *)
(** ** The key of a game *)

Section KeyedRows.

Context {Row Key : Type}.
Variable key : Row -> Key.

Lemma keys_unique_after_filter (keep : Row -> bool) (rows : list Row) :
  NoDup (map key rows) -> NoDup (map key (filter keep rows)).
Proof.
  intros Huniq. induction rows as [|r rows IH]; [constructor|].
  cbn [map] in Huniq. apply NoDup_cons_iff in Huniq.
  destruct Huniq as [Hfresh Huniq]. cbn [filter].
  destruct (keep r); [|now apply IH].
  cbn [map]. constructor; [|now apply IH].
  intros Hin. apply Hfresh. apply in_map_iff in Hin.
  destruct Hin as [r' [Hkey Hin]]. apply filter_In in Hin.
  rewrite <- Hkey. apply in_map. tauto.
Qed.

Lemma same_key_same_row (rows : list Row) (r r' : Row) :
  NoDup (map key rows) -> In r rows -> In r' rows -> key r = key r' -> r = r'.
Proof.
  induction rows as [|r0 rows IH]; cbn [map In]; intros Huniq Hr Hr' Hkey;
    [contradiction|].
  apply NoDup_cons_iff in Huniq. destruct Huniq as [Hfresh Huniq].
  destruct Hr as [->|Hr], Hr' as [->|Hr']; auto.
  - exfalso. apply Hfresh. rewrite Hkey. now apply in_map.
  - exfalso. apply Hfresh. rewrite <- Hkey. now apply in_map.
Qed.

(** Moving the rows a test picks behind the others permutes the keys. *)
Lemma keys_after_move (moved : Row -> bool) (rows : list Row) :
  Permutation
    (map key (filter (fun r => negb (moved r)) rows) ++ map key (filter moved rows))
    (map key rows).
Proof.
  induction rows as [|r rows IH]; [constructor|].
  cbn [filter]. destruct (moved r); cbn [negb map app].
  - symmetry. etransitivity; [|apply Permutation_middle].
    constructor. now symmetry.
  - now constructor.
Qed.

End KeyedRows.

Lemma handle_keys_unique (svc : UserGameService.t) (db : DB) (rq : Request) :
  NoDup (map row_id (games_tbl db)) ->
  NoDup (map row_id (games_tbl (handle svc db rq))).
Proof.
  intros Hnd. destruct rq as [env dto|dto|dto|i|ul gid|gid l s]; cbn [handle].
  - destruct (game_create_cases db env dto) as [[msg ->]|[i [rk [s [us H]]]]];
      [exact Hnd|].
    destruct H as [_ [_ [_ [Hfree [_ ->]]]]]. cbn [games_tbl].
    rewrite map_app. cbn [map row_id]. apply NoDup_snoc; [exact Hnd|].
    intros Hin. apply in_map_iff in Hin. destruct Hin as [r [Hr Hin]].
    pose proof (has_id_false db i Hfree r Hin) as Hne.
    apply String.eqb_neq in Hne. contradiction.
  - exact Hnd.
  - unfold update_effect.
    destruct (dto_id dto) as [i|]; [|exact Hnd].
    destruct (match dto_status dto with Some s => in_status_enum s | None => true end);
      [|exact Hnd].
    cbn [games_tbl with_games]. rewrite map_app, map_map.
    cbn [apply_dto row_id].
    apply (Permutation_NoDup
             (Permutation_sym
                (keys_after_move row_id (fun r => String.eqb (row_id r) i)
                   (games_tbl db)))).
    exact Hnd.
  - destruct i as [i| |]; try exact Hnd.
    unfold GameService.delete, try_catch_500, GameRepository.destroy, store.
    cbn [snd games_tbl]. now apply keys_unique_after_filter.
  - now rewrite create_store.
  - now rewrite update_store.
Qed.

(** X20. No two stored games share a key, whatever requests are served:
    [GameService.create] refuses a key that is taken, [update] keeps
    every key, [delete] only removes rows, and the user-game controller
    leaves the games alone. *)
Theorem game_keys_stay_unique :
  forall (svc : UserGameService.t) (db : DB) (rqs : list Request),
    NoDup (map row_id (games_tbl db)) ->
    NoDup (map row_id (games_tbl (run svc rqs db))).
Proof.
  intros svc db rqs. revert db. unfold run.
  induction rqs as [|rq rqs IH]; intros db Hnd; simpl; [exact Hnd|].
  apply IH. now apply handle_keys_unique.
Qed.

(** X21. With unique keys, [GameService.findById id] returns a game
    exactly when that game is stored under the key; it returns nothing
    exactly when no stored game has the key. *)
Theorem findById_exact :
  forall (db : DB) (i : string),
    NoDup (map row_id (games_tbl db)) ->
    (forall g,
        GameService.findById (IdUuid i) db = (Ok (Some g), db)
        <-> In g (stored_games db) /\ id g = i)
    /\ (GameService.findById (IdUuid i) db = (Ok None, db)
        <-> forall g, In g (stored_games db) -> id g <> i).
Proof.
  intros db i Hnd. rewrite findById_run. split.
  - intros g. split.
    + intros Heq. injection Heq as Heq.
      destruct (find _ (games_tbl db)) as [r|] eqn:Hr; [|discriminate].
      cbn [option_map] in Heq. injection Heq as <-.
      apply find_some in Hr. destruct Hr as [Hin Hid]. apply String.eqb_eq in Hid.
      split; [now apply in_map | exact Hid].
    + intros [Hin Hid]. unfold stored_games in Hin. apply in_map_iff in Hin.
      destruct Hin as [r [<- Hr]]. cbn [id include_all] in Hid.
      destruct (existsb_find (fun r => String.eqb (row_id r) i) (games_tbl db))
        as [r' [Hfind [Hr' Hid']]].
      { apply existsb_exists. exists r. split; [exact Hr|]. now apply String.eqb_eq. }
      apply String.eqb_eq in Hid'. rewrite Hfind. cbn [option_map].
      replace r' with r; [reflexivity|].
      apply (same_key_same_row row_id (games_tbl db)); auto. congruence.
  - split.
    + intros Heq. injection Heq as Heq.
      destruct (find _ (games_tbl db)) as [r|] eqn:Hr; [discriminate|].
      intros g Hg Hid. unfold stored_games in Hg. apply in_map_iff in Hg.
      destruct Hg as [r [<- Hin]]. cbn [id include_all] in Hid.
      pose proof (find_none _ _ Hr r Hin) as Hne. cbn in Hne.
      apply String.eqb_neq in Hne. contradiction.
    + intros Hnone.
      destruct (find _ (games_tbl db)) as [r|] eqn:Hr; [|reflexivity].
      exfalso. apply find_some in Hr. destruct Hr as [Hin Hid].
      apply String.eqb_eq in Hid.
      apply (Hnone (include_all db r)); [now apply in_map | exact Hid].
Qed.

Lemma db_lobby_keys_unique : NoDup (map row_id (games_tbl db_lobby)).
Proof.
  cbn. repeat constructor; cbn; intuition discriminate.
Qed.

Lemma game_keys_stay_unique_witness :
  NoDup (map row_id
           (games_tbl
              (run Sample.service
                   [ GameCreate (mkEnv 40 "g2")
                       (mkGameDto None (Some true) (Some "waiting") None []);
                     GameCreate (mkEnv 41 "g9")
                       (mkGameDto None (Some true) (Some "waiting") None []);
                     GameUpdate (mkGameDto (Some "g1") None (Some "ongoing") None []);
                     GameUpdateLands
                       (mkGameDto (Some "g1") None (Some "ongoing") None []);
                     GameDelete (IdUuid "g3") ] db_lobby))).
Proof.
  apply game_keys_stay_unique. exact db_lobby_keys_unique.
Defined.

Lemma findById_exact_witness :
  GameService.findById (IdUuid "g2") db_lobby
  = (Ok (Some (mkGame "g2" false "invitation" (Some "carol") 20 [Sample.bob])), db_lobby)
  /\ GameService.findById (IdUuid "g5") db_lobby = (Ok None, db_lobby).
Proof.
  destruct (findById_exact db_lobby "g2" db_lobby_keys_unique) as [Hsome _].
  destruct (findById_exact db_lobby "g5" db_lobby_keys_unique) as [_ Hnone].
  split.
  - apply Hsome. split; [|reflexivity]. right. left. reflexivity.
  - apply Hnone. intros g Hg Hid. cbn in Hg.
    destruct Hg as [<-|[<-|[<-|[]]]]; discriminate.
Defined.
